(** * tg: rendering and input decoding (src/tg/formatters.py, src/tg/views.py)

    A shallow embedding of the formatters and views of the terminal client,
    and the properties of the specification checked against it.

    Conventions.
    - Python [int] is [Z]; [len] is [Z.of_nat (length _)].
    - Python [str] is [string]; a string stands for its UTF-8 bytes, so an
      ASCII character is one element and the two-byte keys read by
      [View.get_keys] are two elements.
    - A [dict] of the configuration is a [gmap]; a TDLib record whose keys the
      code reads with [d["k"]] is a [Record] with that field, a key read with
      [d.get("k")] or tested with ["k" in d] is an [option] field.
    - Code that can raise returns a [result]. *)

From Stdlib Require Import ZArith Ascii String.
From stdpp Require Import base numbers option list strings gmap pretty.

Open Scope string_scope.
Open Scope Z_scope.

(** ** Python built-ins used by the source *)

Module Py.

Inductive exc : Type :=
| KeyError
| IndexError
| ValueError
| OverflowError
| ZeroDivisionError
| TypeError
| UnicodeDecodeError.

Inductive result (A : Type) : Type :=
| Ok (a : A)
| Raise (e : exc).
Arguments Ok {A} a.
Arguments Raise {A} e.

Definition bind {A B} (r : result A) (k : A -> result B) : result B :=
  match r with
  | Ok a => k a
  | Raise e => Raise e
  end.

(** [len(l)] *)
Definition len {A} (l : list A) : Z := Z.of_nat (length l).

(** Normalisation of one bound of a slice: a negative bound counts from the
    end, and every bound is clipped to [0, len]. *)
Definition slice_bound (n i : Z) : Z :=
  if i <? 0 then Z.max (i + n) 0 else Z.min i n.

(** [l[start:stop]]; [None] is an omitted bound. *)
Definition slice {A} (l : list A) (start stop : option Z) : list A :=
  let n := len l in
  let lo := from_option (slice_bound n) 0 start in
  let hi := from_option (slice_bound n) n stop in
  take (Z.to_nat (hi - lo)) (drop (Z.to_nat lo) l).

(** [l.pop(0)] guarded by [len(l) > 0], as the source writes it. *)
Definition pop0_if_nonempty {A} (l : list A) : list A :=
  if 0 <? len l then tail l else l.

(** [abs(n)] *)
Definition abs (n : Z) : Z := Z.abs n.

(** [int(a / b)] on integers: true division, then truncation towards zero.
    Division by zero raises.  The quotient is exact as long as the operands
    are exactly representable as floats (below 2^53 in magnitude). *)
Definition int_truediv (a b : Z) : result Z :=
  if b =? 0 then Raise ZeroDivisionError else Ok (Z.quot a b).

(** [c * n] for a one-character string [c]: empty when [n <= 0]. *)
Fixpoint replicate_char (n : nat) (c : ascii) : string :=
  match n with
  | O => ""
  | S n => String c (replicate_char n c)
  end.

Definition str_mul (c : ascii) (n : Z) : string := replicate_char (Z.to_nat n) c.

(** [sep.join(l)] *)
Fixpoint join (sep : string) (l : list string) : string :=
  match l with
  | [] => ""
  | [s] => s
  | s :: rest => s +:+ sep +:+ join sep rest
  end.

(** [str(n)] and [f"{n}"] for an integer. *)
Definition str_of_int (n : Z) : string := pretty n.

(** [f"{s: >w}"]: right-aligned in a field of [w] columns, filled with
    spaces on the left; never truncated. *)
Definition rjust (w : Z) (s : string) : string :=
  str_mul " " (w - Z.of_nat (String.length s)) +:+ s.

(** [s.startswith(p)] *)
Definition startswith (s p : string) : bool := String.prefix p s.

(** Truth value of an [Optional[str]] or a [str]: [None] and [""] are false. *)
Definition truthy_str (s : string) : bool := negb (String.eqb s "").

(** The characters the source names by escape. *)
Definition nl : ascii := "010"%char.
Definition dquote : ascii := "034"%char.

(** [s.split(c)] for a one-character separator: never empty. *)
Fixpoint split (c : ascii) (s : string) : list string :=
  match s with
  | EmptyString => [""]
  | String a s' =>
      if Ascii.eqb a c then "" :: split c s'
      else match split c s' with
           | h :: t => String a h :: t
           | [] => [String a ""]
           end
  end.

(** [s.replace(c, r)] for a one-character pattern. *)
Fixpoint replace (c : ascii) (r : string) (s : string) : string :=
  match s with
  | EmptyString => ""
  | String a s' =>
      if Ascii.eqb a c then r +:+ replace c r s' else String a (replace c r s')
  end.

(** [str(b)] for a bool. *)
Definition str_of_bool (b : bool) : string := if b then "True" else "False".

(** [s.isdigit()]: non-empty and every character a decimal digit.  The
    strings tested are the ASCII renderings produced by [curses.unctrl]. *)
Definition is_digit_char (a : ascii) : bool :=
  let n := Z.of_nat (nat_of_ascii a) in (48 <=? n) && (n <=? 57).

Fixpoint all_digits (s : string) : bool :=
  match s with
  | EmptyString => true
  | String a s' => is_digit_char a && all_digits s'
  end.

Definition isdigit (s : string) : bool := truthy_str s && all_digits s.

(** [int(s)] for a string of decimal digits. *)
Fixpoint int_of_digits (acc : Z) (s : string) : Z :=
  match s with
  | EmptyString => acc
  | String a s' => int_of_digits (10 * acc + (Z.of_nat (nat_of_ascii a) - 48)) s'
  end.

(** [s.center(width)] with the space as fill character, as CPython pads:
    the extra column of an odd margin goes to the left when [width] is odd. *)
Definition center (s : string) (width : Z) : string :=
  let marg := width - Z.of_nat (String.length s) in
  if marg <=? 0 then s
  else
    let left := Z.quot marg 2 + Z.land (Z.land marg width) 1 in
    str_mul " " left +:+ s +:+ str_mul " " (marg - left).

(** [s[:n]] on a string; a negative [n] counts from the end. *)
Definition str_slice_to (s : string) (n : Z) : string :=
  string_of_list_ascii (slice (list_ascii_of_string s) None (Some n)).

End Py.

Global Instance result_bind : MBind Py.result := fun _ _ k r => Py.bind r k.
Global Instance result_ret : MRet Py.result := fun _ a => Py.Ok a.

(** ** External collaborators

    [tg.colors], [tg.utils], [tg.config], [tg.tdlib], [tg.models], [tg.msg],
    [curses] and [datetime] are not part of the two source files.  Each is an
    interface here: a record of the names the source imports from it. *)

(** [tg.colors]: curses attribute words. *)
Module Colors.
Record t : Type := {
  get_color : Z -> Z -> Z;
  cyan : Z; yellow : Z; white : Z; magenta : Z;
  bold : Z; reverse : Z; dim : Z
}.
End Colors.

(** [tg.utils] *)
Module Utils.
Record t : Type := {
  get_color_by_str : string -> Z;
  split_string_dwc : string -> Z -> list string;
  string_len_dwc : string -> Z;
  truncate_to_len : string -> Z -> string
}.

(** Modelled from the spec: [tg.utils.flatten] is not in the source files.
    §4.2 step 5: the wrapped lines are flattened into a single ordered
    sequence. *)
Definition flatten {A} (l : list (list A)) : list A := concat l.

(** Modelled from the spec: [tg.utils.enumerate2] is not in the source
    files.  §4.4 renders the items of the window in order; [ChatView.draw]
    passes the row of the first item and the number of rows of an item, so
    the items are paired with [start], [start + step], ... *)
Fixpoint enumerate2 {A} (xs : list A) (start step : Z) : list (Z * A) :=
  match xs with
  | [] => []
  | x :: xs' => (start, x) :: enumerate2 xs' (start + step) step
  end.

(** Modelled from the spec: [tg.utils.num] is not in the source files.
    §4.5: the decoder returns the repeat count, or 1 when no digit was read;
    [get_keys] passes it a string of digits and the default. *)
Definition num (value : string) (default : Z) : Z :=
  if Py.isdigit value then Py.int_of_digits 0 value else default.
End Utils.

(** [tg.config] *)
Module Config.
Record t : Type := {
  MSG_FLAGS : gmap string string;
  CHAT_FLAGS : gmap string string;
  USE_CHAT_RANDOM_COLORS : bool;
  LATEST_MSG_ON_TOP : bool;
  LAYOUT_MAPPING : gmap ascii string
}.

(** [table.get(flag, flag)] *)
Definition label (table : gmap string string) (flag : string) : string :=
  default flag (table !! flag).
End Config.

(** [datetime]: the fields the source compares, and the clock- and
    locale-dependent operations. *)
Module Datetime.
Record t : Type := { year : Z; month : Z; day : Z; hour : Z; minute : Z; second : Z }.

Record ops : Type := {
  fromtimestamp : Z -> Py.result t;
  today : t;
  strftime : t -> string -> string
}.

(** [a.date() == b.date()] *)
Definition same_date (a b : t) : bool :=
  (year a =? year b) && (month a =? month b) && (day a =? day b).
End Datetime.

(** ** TDLib records and their [MsgProxy] view *)

Module Td.

Inductive ChatType : Type :=
| chatTypePrivate
| chatTypeBasicGroup
| chatTypeSupergroup
| chatTypeSecret
| channel.

Global Instance ChatType_eq_dec : EqDecision ChatType.
Proof. solve_decision. Defined.

Record WebPage : Type := {
  web_type : string;
  web_url : string;
  web_site_name : string;
  web_title : string;
  web_description_text : string
}.

(** [msg["content"]]: the keys [_parse_content] and [_format_url] read. *)
Record Content : Type := {
  content_type_tag : string;                 (* "@type" *)
  content_title : option string;              (* "title" *)
  content_member_user_ids : option (list Z);  (* "member_user_ids" *)
  content_user_id : option Z;                 (* "user_id" *)
  content_web_page : option WebPage;          (* "web_page" *)
  content_repr : string                       (* str(content) *)
}.

Record Local : Type := {
  is_downloading_completed : bool;
  is_downloading_active : bool;
  downloaded_size : Z
}.

Record PollOption : Type := {
  voter_count : Z;
  vote_percentage : Z;
  option_text : string
}.

(** One button of an inline keyboard: [item.get("text")],
    [item.get("type", {}).get("@type")], [item.get("type", {}).get("url")]. *)
Record Button : Type := {
  button_text : option string;
  button_type : option string;
  button_url : option string
}.

(** A message: the keys read from the raw record and the properties of
    its [MsgProxy]. *)
Record Msg : Type := {
  (* raw keys *)
  raw_id : Z;                        (* msg["id"] *)
  raw_sender_user_id : option Z;     (* msg["sender_id"].get("user_id") *)
  raw_date : Z;                      (* msg["date"] *)
  sending_state : option string;     (* "@type" of msg.get("sending_state") *)
  edit_date : Z;                     (* msg["edit_date"] *)
  content : Content;                 (* msg["content"] *)
  (* MsgProxy properties *)
  msg_id : Z;
  chat_id : Z;
  date : Datetime.t;
  sender_id : Z;
  forward : bool;                    (* forward is not None *)
  caption : option string;
  reply_msg_id : option Z;
  reply_markup : bool;               (* truth value of reply_markup *)
  reply_markup_rows : list (list Button);
  links_from_entities : string;
  is_message : bool;
  is_text : bool;
  text_content : string;
  content_type : option string;
  is_poll : bool;
  poll_question : string;
  poll_options : list PollOption;
  file_name : option string;
  local : Local;
  size : option Z;
  human_size : option string;
  duration : option string;
  is_listened : option bool;
  is_viewed : option bool;
  is_animated : option bool;
  sticker_emoji : option string;
  is_closed_poll : option bool
}.

Record Chat : Type := {
  id : Z;
  title : string;
  type_tag : string;                 (* chat["type"]["@type"] *)
  type_is_channel : option bool;     (* chat["type"].get("is_channel") *)
  last_message : option Msg;         (* chat.get("last_message") *)
  last_read_inbox_message_id : Z;
  last_read_outbox_message_id : Z;
  is_pinned : option bool;           (* "is_pinned" in chat, chat["is_pinned"] *)
  mute_for : Z;                      (* chat["notification_settings"]["mute_for"] *)
  is_marked_as_unread : bool;
  unread_count : Z
}.

End Td.
Import Td.

(** [tg.tdlib] *)
Module Tdlib.
Record t : Type := {
  get_chat_type : Chat -> option ChatType;
  is_group : ChatType -> bool
}.
End Tdlib.

(** [tg.models.Model]: the queries the formatters make. *)
Module Model.
Record t : Type := {
  current_chat_record : Chat;             (* chats.chat_by_index(current_chat) *)
  selected : Z -> list Z;                 (* selected[chat_id] *)
  is_me : option Z -> bool;
  get_message : Z -> Z -> option Msg;     (* msgs.get_message(chat_id, msg_id) *)
  get_user_label : Z -> string;           (* users.get_user_label *)
  is_online : Z -> bool;                  (* users.is_online *)
  get_user_action : Z -> option Z * option string   (* users.get_user_action *)
}.
End Model.

(** ** formatters.py: styled text *)

Record FormattedText : Type := { text : string; attributes : Z }.

Record FormattedLine : Type := { parts : list FormattedText }.

(** [line.add_part(text, attributes)] *)
Definition add_part (line : FormattedLine) (t : string) (a : Z) : FormattedLine :=
  {| parts := parts line ++ [ {| text := t; attributes := a |} ] |}.

(** ** formatters.py: MsgFormatter *)

Module MsgFormatter.
Section Env.
Variable colors : Colors.t.
Variable utils : Utils.t.
Variable config : Config.t.
Variable clock : Datetime.ops.

Record t : Type := { msg : Msg; model : Model.t; selected : bool }.

(** [self.chat], set in [__init__]. *)
Definition chat (self : t) : Chat := Model.current_chat_record (model self).

(** [self.states], set in [__init__]. *)
Definition states : gmap string string :=
  <["messageSendingStateFailed" := "failed"]>
    (<["messageSendingStatePending" := "pending"]> ∅).

Definition time (self : t) : string :=
  Datetime.strftime clock (date (msg self)) "%H:%M:%S".

Definition sender (self : t) : string :=
  match type_is_channel (chat self) with
  | Some true => title (chat self)
  | _ => Model.get_user_label (model self) (sender_id (msg self))
  end.

(** The [if]/[elif]/[elif] chain of [flags] on the read markers. *)
Definition read_flags (self : t) : list string :=
  let m := msg self in
  let c := chat self in
  let me := Model.is_me (model self) in
  if negb (me (Some (sender_id m))) && (last_read_inbox_message_id c <? msg_id m)
  then ["new"]
  else if me (Some (sender_id m)) && (last_read_outbox_message_id c <? msg_id m)
  then (if negb (me (Some (id c))) then ["unseen"] else [])
  else if me (Some (sender_id m)) && (msg_id m <=? last_read_outbox_message_id c)
  then ["seen"]
  else [].

(** The list [flags] that the property [flags] joins. *)
Definition flags_list (self : t) : list string :=
  let m := msg self in
  (if bool_decide (msg_id m ∈ Model.selected (model self) (id (chat self)))
   then ["selected"] else [])
  ++ (if forward m then ["forwarded"] else [])
  ++ read_flags self
  ++ match sending_state m with
     | Some state_type => [default state_type (states !! state_type)]
     | None => []
     end
  ++ (if edit_date m =? 0 then [] else ["edited"]).

Definition flags (self : t) : string :=
  match flags_list self with
  | [] => ""
  | fl => Py.join " " (map (Config.label (Config.MSG_FLAGS config)) fl)
  end.

Definition time_color : Z := Colors.get_color colors (Colors.cyan colors) (-1).

Definition sender_color (self : t) : Z :=
  Colors.get_color colors (Utils.get_color_by_str utils (sender self)) (-1).

Definition flags_color : Z := Colors.get_color colors (Colors.yellow colors) (-1).

Definition text_color : Z := Colors.get_color colors (Colors.white colors) (-1).

Definition _format_attributes (self : t) (attributes : Z) : Z :=
  if selected self then Z.lor attributes (Colors.reverse colors) else attributes.

Definition _format_bool (value : option bool) : option string :=
  match value with
  | None => None
  | Some b => Some (if b then "yes" else "no")
  end.

Definition _get_download (local : Local) (size : option Z) : Py.result (option string) :=
  match size with
  | None => Py.Ok None
  | Some sz =>
      if sz =? 0 then Py.Ok None
      else if is_downloading_completed local then Py.Ok (Some "yes")
      else if is_downloading_active local then
        let d := downloaded_size local in
        percent ← Py.int_truediv (d * 100) sz;
        Py.Ok (Some (Py.str_of_int percent +:+ "%"))
      else Py.Ok (Some "no")
  end.

(** [d[k]] on a key that may be missing. *)
Definition getitem {A} (o : option A) : Py.result A :=
  match o with
  | Some a => Py.Ok a
  | None => Py.Raise Py.KeyError
  end.

(** The entries [k=v] of [fields] whose value is not [None], in the order
    of the [dict(...)] call. *)
Definition field {A} (k : string) (show : A -> string) (v : option A) : list string :=
  match v with
  | Some a => [k +:+ "=" +:+ show a]
  | None => []
  end.

Definition poll_option_line (o : PollOption) : string :=
  String Py.nl " * " +:+ Py.str_of_int (voter_count o)
  +:+ " (" +:+ Py.str_of_int (vote_percentage o) +:+ "%) | " +:+ option_text o.

Definition _parse_content (self : t) : Py.result string :=
  let m := msg self in
  let users := Model.get_user_label (model self) in
  if is_text m then Py.Ok (text_content m)
  else
    let c := content m in
    let _type := content_type_tag c in
    if String.eqb _type "messageBasicGroupChatCreate" then
      ttl ← getitem (content_title c);
      Py.Ok ("[created the group " +:+ String Py.dquote ttl +:+ String Py.dquote "]")
    else if String.eqb _type "messageChatAddMembers" then
      user_ids ← getitem (content_member_user_ids c);
      match user_ids with
      | [] => Py.Raise Py.IndexError
      | first :: _ =>
          if first =? sender_id m then Py.Ok "[joined the group]"
          else Py.Ok ("[added " +:+ Py.join ", " (map users user_ids) +:+ "]")
      end
    else if String.eqb _type "messageChatDeleteMember" then
      user_id ← getitem (content_user_id c);
      if user_id =? sender_id m then Py.Ok "[left the group]"
      else Py.Ok ("[removed " +:+ users user_id +:+ "]")
    else if String.eqb _type "messageChatChangeTitle" then
      ttl ← getitem (content_title c);
      Py.Ok ("[changed the group name to " +:+ String Py.dquote ttl +:+ String Py.dquote "]")
    else
      match content_type m with
      | None | Some EmptyString => Py.Ok ("[" +:+ _type +:+ "]")
      | Some ctype =>
          let content_text :=
            if is_poll m
            then String Py.nl " " +:+ poll_question m
                 +:+ String.concat "" (map poll_option_line (poll_options m))
            else "" in
          download ← _get_download (local m) (size m);
          let info := Py.join ", " (
               field "name" (fun s => s) (file_name m)
            ++ field "download" (fun s => s) download
            ++ field "size" (fun s => s) (human_size m)
            ++ field "duration" (fun s => s) (duration m)
            ++ field "listened" (fun s => s) (_format_bool (is_listened m))
            ++ field "viewed" (fun s => s) (_format_bool (is_viewed m))
            ++ field "animated" Py.str_of_bool (is_animated m)
            ++ field "emoji" (fun s => s) (sticker_emoji m)
            ++ field "closed" Py.str_of_bool (is_closed_poll m)) in
          Py.Ok ("[" +:+ ctype +:+ ": " +:+ info +:+ "]" +:+ content_text)
      end.

Definition _parse_msg (self : t) : Py.result string :=
  if is_message (msg self) then _parse_content self
  else Py.Ok ("unknown msg type: " +:+ content_repr (content (msg self))).

Definition _format_url (self : t) : string :=
  let m := msg self in
  match content_web_page (content m) with
  | Some web =>
      if negb (is_text m) then ""
      else if String.eqb (web_type web) "photo"
      then String Py.nl " | photo: " +:+ web_url web
      else
        let description := Py.replace Py.nl "" (web_description_text web) in
        let url := String Py.nl " | " +:+ web_site_name web +:+ ": " +:+ web_title web in
        if Py.truthy_str description
        then url +:+ String Py.nl " | " +:+ description
        else url
  | None => ""
  end.

Definition button_cell (item : Button) : string :=
  match button_text item with
  | None | Some EmptyString => ""
  | Some txt =>
      let txt' :=
        match button_type item, button_url item with
        | Some "inlineKeyboardButtonTypeUrl", Some url =>
            if Py.truthy_str url then txt +:+ " (" +:+ url +:+ ")" else txt
        | _, _ => txt
        end in
      "| " +:+ txt' +:+ " "
  end.

Definition _format_reply_markup (self : t) : string :=
  if negb (reply_markup (msg self)) then ""
  else String.concat ""
         (map (fun row => String Py.nl "" +:+ String.concat "" (map button_cell row) +:+ "|")
              (reply_markup_rows (msg self))).

(** [_format_reply_msg] calls [self._parse_msg(reply_msg)], but [_parse_msg]
    takes no argument besides [self]: once the replied-to message is found
    the call raises [TypeError], and the rest of the function is never
    reached. *)
Definition _format_reply_msg (self : t) (chat_id : Z) (body : string)
    (reply_to : Z) (width_limit : Z) : Py.result string :=
  match Model.get_message (model self) chat_id reply_to with
  | None => Py.Ok body
  | Some _ => Py.Raise Py.TypeError
  end.

Definition header_line (self : t) : FormattedLine :=
  let l0 := {| parts := [] |} in
  let l1 := add_part l0 (" " +:+ time self) (_format_attributes self time_color) in
  let l2 := add_part l1 (" " +:+ sender self) (_format_attributes self (sender_color self)) in
  add_part l2 (" " +:+ flags self) (_format_attributes self flags_color).

Definition format (self : t) (width : Z) : Py.result (list FormattedLine) :=
  let m := msg self in
  body0 ← _parse_msg self;
  let body1 :=
    match caption m with
    | None | Some EmptyString => body0
    | Some c => body0 +:+ String Py.nl "" +:+ Py.replace Py.nl " " c
    end in
  let body2 := body1 +:+ _format_url self in
  body3 ← match reply_msg_id m with
           | None => Py.Ok body2
           | Some reply_to =>
               if reply_to =? 0 then Py.Ok body2
               else _format_reply_msg self (chat_id m) body2 reply_to width
           end;
  let body4 := body3 +:+ _format_reply_markup self in
  let body5 := body4 +:+ links_from_entities m in
  let msg_lines :=
    Utils.flatten (map (fun msg_line => Utils.split_string_dwc utils msg_line width)
                       (Py.split Py.nl body5)) in
  Py.Ok (header_line self
         :: map (fun line => {| parts := [ {| text := line; attributes := text_color |} ] |})
                msg_lines).

End Env.
End MsgFormatter.

(** ** formatters.py: ChatFormatter *)

Module ChatFormatter.
Section Env.
Variable colors : Colors.t.
Variable utils : Utils.t.
Variable config : Config.t.
Variable clock : Datetime.ops.
Variable tdlib : Tdlib.t.

Definition height : Z := 2.

Record t : Type := { chat : Chat; model : Model.t; selected : bool }.

(** [self.title], set in [__init__]. *)
Definition title (self : t) : string := Td.title (chat self).

Definition date (self : t) : Py.result string :=
  match last_message (chat self) with
  | None => Py.Ok "<No date>"
  | Some last_msg =>
      dt ← Datetime.fromtimestamp clock (raw_date last_msg);
      let today := Datetime.today clock in
      let date_fmt :=
        if Datetime.same_date today dt then "%H:%M"
        else if Datetime.year today =? Datetime.year dt then "%d %b"
        else "%d %b %y" in
      Py.Ok (Datetime.strftime clock dt date_fmt)
  end.

Definition with_reverse (self : t) (color : Z) : Z :=
  if selected self then Z.lor color (Colors.reverse colors) else color.

Definition date_color (self : t) : Z :=
  with_reverse self
    (Z.lor (Colors.get_color colors (Colors.cyan colors) (-1)) (Colors.dim colors)).

Definition flags_color (self : t) : Z :=
  with_reverse self (Colors.get_color colors (Colors.magenta colors) (-1)).

Definition title_color (self : t) : Z :=
  with_reverse self
    (if negb (Config.USE_CHAT_RANDOM_COLORS config)
     then Colors.get_color colors (Colors.cyan colors) (-1)
     else Colors.get_color colors (Utils.get_color_by_str utils (title self)) (-1)).

Definition subtitle_color : Z :=
  Z.lor (Colors.get_color colors (Colors.white colors) (-1)) (Colors.dim colors).

Definition sender_color (sender : string) : Z :=
  Z.lor (Colors.get_color colors (Utils.get_color_by_str utils sender) (-1))
        (Colors.dim colors).

(** Truth value of an optional integer: [None] and [0] are false. *)
Definition truthy_int (o : option Z) : bool :=
  match o with Some n => negb (n =? 0) | None => false end.

Definition truthy_opt_str (o : option string) : bool :=
  match o with Some s => Py.truthy_str s | None => false end.

Definition _get_action_label (self : t) : option string :=
  let '(actioner, action) := Model.get_user_action (model self) (id (chat self)) in
  match actioner, action with
  | Some who, Some act =>
      if truthy_int actioner && Py.truthy_str act then
        let label := act +:+ "..." in
        match Tdlib.get_chat_type tdlib (chat self) with
        | Some chat_type =>
            if Tdlib.is_group tdlib chat_type
            then Some (Model.get_user_label (model self) who +:+ " " +:+ label)
            else Some label
        | None => Some label
        end
      else None
  | _, _ => None
  end.

(** The first [if]/[elif] of [_get_flags]: the state of the last message. *)
Definition seen_flags (self : t) : list string :=
  let c := chat self in
  let me := Model.is_me (model self) in
  match last_message c with
  | None => []
  | Some m =>
      if me (raw_sender_user_id m)
         && (last_read_outbox_message_id c <? raw_id m)
         && negb (me (Some (id c)))
      then ["unseen"]
      else if me (raw_sender_user_id m)
              && (raw_id m <=? last_read_outbox_message_id c)
      then ["seen"]
      else []
  end.

(** The [if]/[elif]/[else] of [_get_flags] on the unread state. *)
Definition unread_flag (c : Chat) : string :=
  if is_marked_as_unread c then "unread"
  else if negb (unread_count c =? 0)
  then Py.rjust 4 (Py.str_of_int (Z.min 999 (unread_count c)))
  else "    ".

(** The flags that [_get_flags] takes from the model: the state of the last
    message, the action label and the presence. *)
Definition status_flags (self : t) : list string :=
  seen_flags self
  ++ match _get_action_label self with
     | Some action_label => if Py.truthy_str action_label then [action_label] else []
     | None => []
     end
  ++ (if Model.is_online (model self) (id (chat self)) then ["online"] else []).

(** The list [flags] that [_get_flags] joins. *)
Definition flags_list (self : t) : list string :=
  let c := chat self in
  status_flags self
  ++ match is_pinned c with Some true => ["pinned"] | _ => [] end
  ++ (if mute_for c =? 0 then [] else ["muted"])
  ++ [unread_flag c]
  ++ (if bool_decide (Tdlib.get_chat_type tdlib c = Some chatTypeSecret)
      then ["secret"] else []).

Definition _get_flags (self : t) : string :=
  let label := Py.join " " (map (Config.label (Config.CHAT_FLAGS config)) (flags_list self)) in
  if Py.truthy_str label then " " +:+ label else label.

Definition _get_last_msg (self : t) : Py.result (option Z * string) :=
  match last_message (chat self) with
  | None => Py.Ok (None, "<No messages yet>")
  | Some last_msg =>
      let formatter :=
        {| MsgFormatter.msg := last_msg;
           MsgFormatter.model := model self;
           MsgFormatter.selected := false |} in
      parsed ← MsgFormatter._parse_content formatter;
      Py.Ok (raw_sender_user_id last_msg, parsed)
  end.

Definition _get_last_msg_data (self : t) : Py.result (option string * string) :=
  '(user, last_msg) ← _get_last_msg self;
  let last_msg := Py.replace Py.nl " " last_msg in
  match user with
  | Some u =>
      if truthy_int user then
        let last_msg_sender := Model.get_user_label (model self) u in
        match Tdlib.get_chat_type tdlib (chat self) with
        | Some chat_type =>
            if Tdlib.is_group tdlib chat_type
            then Py.Ok (Some last_msg_sender, last_msg)
            else Py.Ok (None, last_msg)
        | None => Py.Ok (None, last_msg)
        end
      else Py.Ok (None, last_msg)
  | None => Py.Ok (None, last_msg)
  end.

(** [spacer_len] as [format] computes it from the three rendered fields. *)
Definition spacer_len (width : Z) (date title flags : string) : Z :=
  width - Utils.string_len_dwc utils date - Utils.string_len_dwc utils title
  - Utils.string_len_dwc utils flags - 3.

Definition format (self : t) (width : Z) : Py.result (list FormattedLine) :=
  '(last_msg_sender, last_msg) ← _get_last_msg_data self;
  let sender :=
    if truthy_opt_str last_msg_sender
    then " " +:+ default "" last_msg_sender +:+ " " else "" in
  let flags := _get_flags self in
  date ← date self;
  let spacer_len := spacer_len width date (title self) flags in
  let first_line :=
    add_part (add_part (add_part (add_part {| parts := [] |}
      (" " +:+ date) (date_color self))
      (" " +:+ title self) (title_color self))
      (Py.str_mul " " spacer_len) (title_color self))
      (flags +:+ " ") (flags_color self) in
  let second_line :=
    add_part (add_part (add_part {| parts := [] |}
      (Py.str_mul " " 7) subtitle_color)
      sender (sender_color sender))
      (Utils.truncate_to_len utils last_msg
         (width - Utils.string_len_dwc utils sender - 10)) subtitle_color in
  Py.Ok [first_line; second_line].

End Env.
End ChatFormatter.

(** ** formatters.py: HeaderFormatter *)

Module HeaderFormatter.
Section Env.
Variable colors : Colors.t.

Record t : Type := { text : string }.

Definition format (self : t) (width : Z) : list FormattedLine :=
  [ Build_FormattedLine
      [ Build_FormattedText (text self)
          (Z.lor (Colors.get_color colors (Colors.cyan colors) (-1)) (Colors.bold colors)) ];
    Build_FormattedLine
      [ Build_FormattedText (Py.str_mul "-" width)
          (Colors.get_color colors (Colors.cyan colors) (-1)) ] ].

End Env.
End HeaderFormatter.

(** [MessagesHeaderFormatter.height] *)
Module MessagesHeaderFormatter.
Definition height : Z := 2.
End MessagesHeaderFormatter.

(** ** views.py: the keybinding table *)

Definition MAX_KEYBINDING_LENGTH : nat := 5.

(** The tuple [MULTICHAR_KEYBINDINGS] as the module first binds it. *)
Definition canonical_keybindings : list string :=
  ["dd"; "sd"; "sp"; "sa"; "sv"; "sn"; "ns"; "ng"; "bp"].

(** [mapped_binding]: each character of [binding] replaced by
    [config.LAYOUT_MAPPING[char]]; a character the mapping lacks raises. *)
Fixpoint mapped_binding (layout : gmap ascii string) (binding : string) : Py.result string :=
  match binding with
  | EmptyString => Py.Ok ""
  | String char rest =>
      match layout !! char with
      | None => Py.Raise Py.KeyError
      | Some mapped =>
          tail ← mapped_binding layout rest;
          Py.Ok (mapped +:+ tail)
      end
  end.

Fixpoint mapped_bindings (layout : gmap ascii string) (bindings : list string)
  : Py.result (list string) :=
  match bindings with
  | [] => Py.Ok []
  | binding :: rest =>
      m ← mapped_binding layout binding;
      ms ← mapped_bindings layout rest;
      Py.Ok (m :: ms)
  end.

(** [MULTICHAR_KEYBINDINGS] after the module is loaded. *)
Definition MULTICHAR_KEYBINDINGS (config : Config.t) : Py.result (list string) :=
  let layout := Config.LAYOUT_MAPPING config in
  if bool_decide (layout = ∅) then Py.Ok canonical_keybindings
  else
    mapped ← mapped_bindings layout canonical_keybindings;
    Py.Ok (canonical_keybindings ++ mapped)%list.

(** ** views.py: View.get_keys *)

(** [curses]: [unctrl ch] is [curses.unctrl(ch).decode()]. *)
Module Curses.
Record t : Type := { unctrl : Z -> Py.result string }.
End Curses.

Module View.

(** What a decode cycle comes to on a finite run of key codes: a result and
    the codes left unread, a wait in [getch] for a code that has not arrived,
    or an exception. *)
Inductive outcome (A : Type) : Type :=
| Done (a : A) (unread : list Z)
| Waiting
| Raised (e : Py.exc).
Arguments Done {A} a unread.
Arguments Waiting {A}.
Arguments Raised {A} e.

(** [n.to_bytes()]: one byte, for [0 <= n < 256]. *)
Definition to_byte (n : Z) : Py.result ascii :=
  if (0 <=? n) && (n <? 256) then Py.Ok (ascii_of_nat (Z.to_nat n))
  else Py.Raise Py.OverflowError.

(** [(ch.to_bytes() + second_ch.to_bytes()).decode('utf-8')] for a lead byte
    208 or 209: the second byte has to be a continuation byte. *)
Definition decode_pair (ch second_ch : Z) : Py.result string :=
  b1 ← to_byte ch;
  b2 ← to_byte second_ch;
  if (128 <=? second_ch) && (second_ch <? 192)
  then Py.Ok (String b1 (String b2 ""))
  else Py.Raise Py.UnicodeDecodeError.

(** The test that ends a cycle: every binding is the keys read so far or
    does not start with them. *)
Definition settled (bindings : list string) (keys : string) : bool :=
  forallb (fun p => String.eqb p keys || negb (Py.startswith p keys)) bindings.

Section Env.
Variable curses : Curses.t.
Variable bindings : list string.

(** The [for] loop of [get_keys]; [fuel] is what is left of
    [range(MAX_KEYBINDING_LENGTH)], [input] the codes [getch] will return. *)
Fixpoint get_keys_loop (fuel : nat) (input : list Z) (keys repeat_factor : string)
  : outcome (string * string) :=
  match fuel with
  | O => Done (keys, repeat_factor) input
  | S fuel' =>
      match input with
      | [] => Waiting
      | ch :: input1 =>
          let accept key input' :=
            let keys' := keys +:+ key in
            if settled bindings keys'
            then Done (keys', repeat_factor) input'
            else get_keys_loop fuel' input' keys' repeat_factor in
          if (ch =? 208) || (ch =? 209) then
            match input1 with
            | [] => Waiting
            | second_ch :: input2 =>
                match decode_pair ch second_ch with
                | Py.Raise e => Raised e
                | Py.Ok key => accept key input2
                end
            end
          else
            match Curses.unctrl curses ch with
            | Py.Raise _ => Done (keys, repeat_factor) input1
            | Py.Ok key =>
                if Py.isdigit key
                then get_keys_loop fuel' input1 keys (repeat_factor +:+ key)
                else accept key input1
            end
      end
  end.

Definition get_keys (input : list Z) : outcome (Z * string) :=
  match get_keys_loop MAX_KEYBINDING_LENGTH input "" "" with
  | Done (keys, repeat_factor) unread =>
      Done (Utils.num repeat_factor 1, if Py.truthy_str keys then keys else "UNKNOWN") unread
  | Waiting => Waiting
  | Raised e => Raised e
  end.

End Env.
End View.

(** ** views.py: drawing *)

(** What a view does to its window, in order. *)
Inductive DrawOp : Type :=
| Erase
| VLine (y x n : Z)
| AddStr (y x : Z) (s : string) (attr : Z)
| Refresh.

Module AbstractView.
Section Env.
Variable utils : Utils.t.

(** The inner loop of [draw_lines]: the parts of one line, left to right. *)
Fixpoint draw_parts (line_num column : Z) (ps : list FormattedText) : list DrawOp :=
  match ps with
  | [] => []
  | part :: rest =>
      AddStr line_num column (text part) (attributes part)
      :: draw_parts line_num (column + Utils.string_len_dwc utils (text part)) rest
  end.

(** [draw_lines(line_num, lines)]: the writes, and the line number after
    the last line drawn. *)
Fixpoint draw_lines (first_column line_num : Z) (lines : list FormattedLine)
  : list DrawOp * Z :=
  match lines with
  | [] => ([], line_num)
  | line :: rest =>
      let '(ops, n) := draw_lines first_column (line_num + 1) rest in
      ((draw_parts line_num first_column (parts line) ++ ops)%list, n)
  end.

End Env.
End AbstractView.

(** ** views.py: ChatView *)

Module ChatView.
Section Env.
Variable utils : Utils.t.

Record t : Type := {
  h : Z;
  w : Z;
  first_column : Z;
  draw_vline : bool;
  model : Model.t;
  (* [header_formatter(title).format(width)] *)
  header_formatter : string -> Z -> list FormattedLine;
  (* [chat_formatter(chat, model, is_selected).format(width)] *)
  chat_formatter : Chat -> Model.t -> bool -> Z -> Py.result (list FormattedLine);
  (* [chat_formatter.height] *)
  chat_formatter_height : Z
}.

(** [limit = int((self.h - header_height) / 2)] *)
Definition limit (self : t) (header_height : Z) : Z :=
  Z.quot (h self - header_height) 2.

(** [offset], [0] unless [current >= limit]. *)
Definition offset (current limit : Z) : Z :=
  if limit <=? current then current - limit + 1 else 0.

(** [chats[offset:limit+offset]] *)
Definition visible {A} (chats : list A) (offset limit : Z) : list A :=
  Py.slice chats (Some offset) (Some (limit + offset)).

(** The body of the [for] loop of [draw] over the enumerated chats. *)
Fixpoint draw_chats (self : t) (width current offset header_height : Z)
    (items : list (Z * Chat)) : Py.result (list DrawOp) :=
  match items with
  | [] => Py.Ok []
  | (line_num, chat) :: rest =>
      let is_selected :=
        line_num =? (current - offset) * chat_formatter_height self + header_height in
      lines ← chat_formatter self chat (model self) is_selected width;
      let '(ops, _) := AbstractView.draw_lines utils (first_column self) line_num lines in
      ops' ← draw_chats self width current offset header_height rest;
      Py.Ok (ops ++ ops')%list
  end.

Definition draw (self : t) (current : Z) (chats : list Chat) (title : string)
  : Py.result (list DrawOp) :=
  let width := if draw_vline self then w self - 1 else w self in
  let vline := if draw_vline self then [VLine 0 width (h self)] else [] in
  let header_lines :=
    header_formatter self (Py.str_slice_to (Py.center title width) width) width in
  let '(header_ops, _) := AbstractView.draw_lines utils (first_column self) 0 header_lines in
  let header_height := Py.len header_lines in
  let limit := limit self header_height in
  let offset := offset current limit in
  ops ← draw_chats self width current offset header_height
          (Utils.enumerate2 (visible chats offset limit) header_height
             (chat_formatter_height self));
  Py.Ok ([Erase] ++ vline ++ header_ops ++ ops ++ [Refresh])%list.

End Env.
End ChatView.

(** ** views.py: MsgView *)

Module MsgView.
Section Env.
Variable config : Config.t.

Record t : Type := {
  h : Z;
  w : Z;
  first_column : Z;
  model : Model.t;
  (* [header_formatter.height] *)
  header_formatter_height : Z;
  (* [message_formatter(MsgProxy(msg), model, is_selected).format(width)] *)
  message_formatter : Msg -> Model.t -> bool -> Z -> Py.result (list FormattedLine)
}.

(** [AbstractView.width] *)
Definition width (self : t) : Z := w self - first_column self.

(** The lines kept of a message past the current one that does not fit. *)
Definition boundary_lines (msg_lines : list FormattedLine) (needed_lines lines_available : Z)
  : list FormattedLine :=
  if Config.LATEST_MSG_ON_TOP config
  then Py.slice msg_lines None (Some (Py.abs lines_available))
  else
    let selected_lines_count := needed_lines - Py.abs lines_available in
    if 0 <? selected_lines_count
    then Py.slice msg_lines (Some (- selected_lines_count)) None
    else [].

(** The [for] loop of [_collect_msgs_to_draw]. *)
Fixpoint collect_loop (self : t) (current_msg_idx : Z) (msgs : list (Z * Msg))
    (collected_items : list (list FormattedLine)) (lines_available : Z)
  : Py.result (list (list FormattedLine)) :=
  match msgs with
  | [] => Py.Ok collected_items
  | (msg_idx, msg_item) :: rest =>
      let is_selected_msg := current_msg_idx =? msg_idx in
      msg_lines ← message_formatter self msg_item (model self) is_selected_msg (width self);
      let needed_lines := Py.len msg_lines in
      let lines_available := lines_available - needed_lines in
      if lines_available <? 0 then
        if msg_idx =? current_msg_idx then
          let selected_lines :=
            Py.slice msg_lines None (Some (needed_lines + lines_available)) in
          Py.Ok (collected_items ++ [selected_lines])%list
        else if msg_idx <? current_msg_idx then
          let collected_items := Py.pop0_if_nonempty collected_items in
          let lines_available := lines_available + needed_lines in
          collect_loop self current_msg_idx rest
            (collected_items ++ [msg_lines])%list lines_available
        else
          let selected_lines := boundary_lines msg_lines needed_lines lines_available in
          if 0 <? Py.len selected_lines
          then Py.Ok (collected_items ++ [selected_lines])%list
          else Py.Ok collected_items
      else
        collect_loop self current_msg_idx rest
          (collected_items ++ [msg_lines])%list lines_available
  end.

Definition _collect_msgs_to_draw (self : t) (current_msg_idx : Z) (msgs : list (Z * Msg))
  : Py.result (list (list FormattedLine)) :=
  collect_loop self current_msg_idx msgs [] (h self - header_formatter_height self).

(** Total number of lines of a list of blocks. *)
Definition total_lines (blocks : list (list FormattedLine)) : Z :=
  Py.len (concat blocks).

End Env.
End MsgView.

(** ** Read-status flags of a message *)

Definition read_flag_names : list string := ["new"; "unseen"; "seen"].

(** How many of the flags of a list are one of [new], [unseen], [seen]. *)
Definition count_read_flags (flags : list string) : nat :=
  length (filter (fun f => f ∈ read_flag_names) flags).

(** A sending state of TDLib is named [messageSendingState...]. *)
Definition tdlib_sending_state (m : Msg) : Prop :=
  forall state_type, sending_state m = Some state_type ->
    String.prefix "messageSendingState" state_type = true.

(** ** A concrete environment

    ncurses attribute words, ASCII text narrower than the window (one
    column per character, nothing to wrap), the default configuration, and
    a model with one user. *)

Module Sample.

Definition colors : Colors.t := {|
  Colors.get_color := fun fg bg => Z.shiftl (fg + 1) 8;
  Colors.cyan := 6; Colors.yellow := 3; Colors.white := 7; Colors.magenta := 5;
  Colors.bold := Z.shiftl 1 21;
  Colors.reverse := Z.shiftl 1 18;
  Colors.dim := Z.shiftl 1 20
|}.

Definition utils : Utils.t := {|
  Utils.get_color_by_str := fun _ => 2;
  Utils.split_string_dwc := fun s _ => [s];
  Utils.string_len_dwc := fun s => Z.of_nat (String.length s);
  Utils.truncate_to_len := fun s width =>
    if Z.of_nat (String.length s) <=? width then s
    else String.substring 0 (Z.to_nat width) s
|}.

Definition config (latest_on_top : bool) : Config.t := {|
  Config.MSG_FLAGS := ∅;
  Config.CHAT_FLAGS := ∅;
  Config.USE_CHAT_RANDOM_COLORS := false;
  Config.LATEST_MSG_ON_TOP := latest_on_top;
  Config.LAYOUT_MAPPING := ∅
|}.

Definition noon : Datetime.t := {|
  Datetime.year := 2024; Datetime.month := 5; Datetime.day := 17;
  Datetime.hour := 12; Datetime.minute := 0; Datetime.second := 0
|}.

Definition clock : Datetime.ops := {|
  Datetime.fromtimestamp := fun _ => Py.Ok noon;
  Datetime.today := noon;
  Datetime.strftime := fun _ fmt =>
    if String.eqb fmt "%H:%M:%S" then "12:00:00"
    else if String.eqb fmt "%H:%M" then "12:00"
    else "17 May"
|}.

Definition tdlib : Tdlib.t := {|
  Tdlib.get_chat_type := fun c =>
    if String.eqb (type_tag c) "chatTypePrivate" then Some chatTypePrivate
    else if String.eqb (type_tag c) "chatTypeBasicGroup" then Some chatTypeBasicGroup
    else if String.eqb (type_tag c) "chatTypeSecret" then Some chatTypeSecret
    else if String.eqb (type_tag c) "chatTypeSupergroup"
    then (match type_is_channel c with Some true => Some channel | _ => Some chatTypeSupergroup end)
    else None;
  Tdlib.is_group := fun ct =>
    bool_decide (ct = chatTypeSupergroup) || bool_decide (ct = chatTypeBasicGroup)
|}.

Definition curses : Curses.t := {|
  Curses.unctrl := fun ch =>
    if (32 <=? ch) && (ch <? 127) then Py.Ok (String (ascii_of_nat (Z.to_nat ch)) "")
    else if (0 <=? ch) && (ch <? 32)
    then Py.Ok (String "^" (String (ascii_of_nat (Z.to_nat (ch + 64))) ""))
    else if ch =? 127 then Py.Ok "^?"
    else Py.Raise Py.OverflowError
|}.

(** A text message of user [from] with identifier [i]. *)
Definition text_msg (i from : Z) (body : string) : Msg := {|
  raw_id := i; raw_sender_user_id := Some from; raw_date := 1715940000;
  sending_state := None; edit_date := 0;
  content := {| content_type_tag := "messageText"; content_title := None;
                content_member_user_ids := None; content_user_id := None;
                content_web_page := None; content_repr := "{...}" |};
  msg_id := i; chat_id := 10; date := noon; sender_id := from;
  forward := false; caption := None; reply_msg_id := None;
  reply_markup := false; reply_markup_rows := []; links_from_entities := "";
  is_message := true; is_text := true; text_content := body;
  content_type := None; is_poll := false; poll_question := ""; poll_options := [];
  file_name := None;
  local := {| is_downloading_completed := false; is_downloading_active := false;
              downloaded_size := 0 |};
  size := None; human_size := None; duration := None;
  is_listened := None; is_viewed := None; is_animated := None;
  sticker_emoji := None; is_closed_poll := None
|}.

(** A body of [n] short lines; the message renders to [n + 1] lines. *)
Fixpoint body_of_lines (n : nat) : string :=
  match n with
  | O => ""
  | 1%nat => "x"
  | S n' => String "x" (String Py.nl (body_of_lines n'))
  end.

(** The message shown at index [i], rendering to [rows] lines. *)
Definition msg_of_rows (i : Z) (rows : nat) : Z * Msg :=
  (i, text_msg (100 + i) 2 (body_of_lines (rows - 1))).

(** A chat with nobody's message in it yet. *)
Definition empty_chat : Chat := {|
  id := 10; title := "Bob"; type_tag := "chatTypePrivate"; type_is_channel := None;
  last_message := None;
  last_read_inbox_message_id := 0; last_read_outbox_message_id := 0;
  is_pinned := None; mute_for := 0; is_marked_as_unread := false; unread_count := 0
|}.

(** A muted secret chat with 1500 unread messages. *)
Definition busy_secret_chat : Chat := {|
  id := 11; title := "Eve"; type_tag := "chatTypeSecret"; type_is_channel := None;
  last_message := Some (text_msg 7 2 "hi");
  last_read_inbox_message_id := 0; last_read_outbox_message_id := 0;
  is_pinned := Some false; mute_for := 3600; is_marked_as_unread := false;
  unread_count := 1500
|}.

(** User 1 is the account; nothing is selected, nobody is typing. *)
Definition model (current : Chat) : Model.t := {|
  Model.current_chat_record := current;
  Model.selected := fun _ => [];
  Model.is_me := fun u => bool_decide (u = Some 1);
  Model.get_message := fun _ _ => None;
  Model.get_user_label := fun u => "user" +:+ Py.str_of_int u;
  Model.is_online := fun _ => false;
  Model.get_user_action := fun _ => (None, None)
|}.

(** A message view of [rows] rows under a two-line header, formatting with
    [MsgFormatter]. *)
Definition msg_view (latest_on_top : bool) (rows : Z) : MsgView.t := {|
  MsgView.h := rows + MessagesHeaderFormatter.height;
  MsgView.w := 80;
  MsgView.first_column := 0;
  MsgView.model := model empty_chat;
  MsgView.header_formatter_height := MessagesHeaderFormatter.height;
  MsgView.message_formatter := fun m mdl is_selected width =>
    MsgFormatter.format colors utils (config latest_on_top) clock
      {| MsgFormatter.msg := m; MsgFormatter.model := mdl;
         MsgFormatter.selected := is_selected |} width
|}.

(** A chat view of height [rows], formatting with [HeaderFormatter] and
    [ChatFormatter]. *)
Definition chat_view (rows : Z) : ChatView.t := {|
  ChatView.h := rows;
  ChatView.w := 40;
  ChatView.first_column := 0;
  ChatView.draw_vline := true;
  ChatView.model := model empty_chat;
  ChatView.header_formatter := fun title width =>
    HeaderFormatter.format colors {| HeaderFormatter.text := title |} width;
  ChatView.chat_formatter := fun c mdl is_selected width =>
    ChatFormatter.format colors utils (config true) clock tdlib
      {| ChatFormatter.chat := c; ChatFormatter.model := mdl;
         ChatFormatter.selected := is_selected |} width;
  ChatView.chat_formatter_height := ChatFormatter.height
|}.

End Sample.

(** ** views.py: StatusView

    The status line slices and measures its text by characters, so text is
    a list of code points here; [chr] and [ord] are then the identity. *)

Module StatusView.

(** What [get_wch] returns: a character, or the integer of a function or
    keypad key. *)
Inductive wch : Type :=
| Char (c : Z)
| KeyCode (n : Z).

(** What the view does to its window and to the terminal, in order. *)
Inductive op : Type :=
| Clear
| Erase
| AddStr (y x : Z) (text : list Z)
| Refresh
| Resize (h w : Z)
| MvWin (y x : Z)
| GetWch (y x : Z)
| CursSet (visibility : Z)
| Cbreak
| Noecho.

(** The part of the Unicode tables the view consults: [str.isprintable] of
    a character, and the display width of a text ([string_len_dwc]). *)
Record unicode : Type := {
  isprintable : Z -> bool;
  string_len_dwc : list Z -> Z
}.

(** What [get_input] comes to on a finite run of keys: its result and the
    keys left unread, a wait in [get_wch], or an exception. *)
Inductive outcome : Type :=
| Done (result : option (list Z)) (unread : list wch)
| Waiting
| Raised (e : Py.exc).

Record t : Type := { h : Z; w : Z; y : Z; x : Z }.

(** [__init__], from [curses.LINES] and [curses.COLS]. *)
Definition init (lines cols : Z) : t :=
  {| h := 1; w := cols; y := lines - 1; x := 0 |}.

Definition resize (self : t) (rows cols : Z) : t * list op :=
  let self' := {| h := h self; w := cols - 1; y := rows - 1; x := x self |} in
  (self', [Resize (h self') (w self'); MvWin (y self') (x self')]).

(** [msg.replace("\n", " ")] *)
Definition flatten_newlines (msg : list Z) : list Z :=
  map (fun c => if c =? 10 then 32 else c) msg.

Definition draw (self : t) (msg : list Z) : list op :=
  [Clear; AddStr 0 0 (Py.slice (flatten_newlines msg) None (Some (w self))); Refresh].

Section Env.
Variable tables : unicode.

(** What one turn of the loop of [get_input] does before it has a key. *)
Definition prompt (self : t) (prefix buff : list Z) : list op :=
  let line := Py.slice buff (Some (- (w self - 1))) None in
  [Erase; AddStr 0 0 (prefix ++ line);
   GetWch 0 (Z.min (string_len_dwc tables (buff ++ prefix)) (w self - 1))].

(** The [while True] loop of [get_input] on the keys that [get_wch] will
    return. *)
Fixpoint input_loop (self : t) (prefix buff : list Z) (input : list wch)
  : outcome * list op :=
  match input with
  | [] => (Waiting, prompt self prefix buff)
  | KeyCode _ :: _ => (Raised Py.TypeError, prompt self prefix buff)
  | Char key :: rest =>
      let continue buff' :=
        let '(r, ops) := input_loop self prefix buff' rest in
        (r, (prompt self prefix buff ++ ops)%list) in
      if key =? 10 then (Done (Some buff) rest, prompt self prefix buff)
      else if (key =? 127) || (key =? 8) then
        continue (if 0 <? Py.len buff then Py.slice buff None (Some (-1)) else buff)
      else if (key =? 7) || (key =? 27) then
        (Done None rest, prompt self prefix buff)
      else if isprintable tables key then continue (buff ++ [key])%list
      else continue buff
  end.

(** [get_input(prefix)]: the cursor is shown, the loop runs, and the
    [finally] block restores the terminal once the loop is left. *)
Definition get_input (self : t) (prefix : list Z) (input : list wch)
  : outcome * list op :=
  let '(r, ops) := input_loop self prefix [] input in
  match r with
  | Waiting => (r, (CursSet 1 :: ops)%list)
  | _ => (r, (CursSet 1 :: ops ++ [Clear; CursSet 0; Cbreak; Noecho])%list)
  end.

(** A key that is added to the buffer: printable, and none of return,
    delete, backspace, ^G and escape. *)
Definition plain_key (key : Z) : Prop :=
  key <> 10 /\ key <> 127 /\ key <> 8 /\ key <> 7 /\ key <> 27
  /\ isprintable tables key = true.

End Env.
End StatusView.

(** ASCII: the characters from the space to the tilde are printable and
    take one column each. *)
Definition ascii_tables : StatusView.unicode := {|
  StatusView.isprintable := fun c => (32 <=? c) && (c <=? 126);
  StatusView.string_len_dwc := fun text => Py.len text
|}.

(** ** Input of digits *)

(** [decodes_to_digits curses codes ds]: each code is an ordinary code that
    [unctrl] decodes to the string of digits at the same position. *)
Definition decodes_to_digits (curses : Curses.t) (codes : list Z) (ds : list string) : Prop :=
  Forall2 (fun ch d => ch <> 208 /\ ch <> 209
                       /\ Curses.unctrl curses ch = Py.Ok d /\ Py.isdigit d = true)
          codes ds.

(** ** Letters of the canonical bindings *)

(** The first letters of the canonical bindings. *)
Definition is_binding_start (c : ascii) : bool :=
  bool_decide (c ∈ ["d"; "s"; "n"; "b"]%char).

(** The letters that occur in the canonical bindings. *)
Definition binding_letters : list ascii :=
  ["d"; "s"; "p"; "a"; "v"; "n"; "g"; "b"]%char.

(** ** A configured layout *)

(** A layout that sends each letter of the bindings to its capital. *)
Definition capitals_layout : gmap ascii string :=
  list_to_map [("d"%char, "D"); ("s"%char, "S"); ("p"%char, "P"); ("a"%char, "A");
               ("v"%char, "V"); ("n"%char, "N"); ("g"%char, "G"); ("b"%char, "B")].

Definition capitals_config : Config.t := {|
  Config.MSG_FLAGS := ∅;
  Config.CHAT_FLAGS := ∅;
  Config.USE_CHAT_RANDOM_COLORS := false;
  Config.LATEST_MSG_ON_TOP := true;
  Config.LAYOUT_MAPPING := capitals_layout
|}.

(** ** Rows and columns of what is drawn *)


(** [row_within lo hi op]: if [op] writes text, it writes it on a row from
    [lo] up to [hi], [hi] excluded. *)
Definition row_within (lo hi : Z) (op : DrawOp) : Prop :=
  match op with
  | AddStr y _ _ _ => lo <= y < hi
  | _ => True
  end.

(** ** Texts of a block *)


(** ** A message without its reply *)

(** The message [m] with [reply_msg_id] absent and everything else as it is. *)
Definition without_reply (m : Msg) : Msg := {|
  raw_id := raw_id m; raw_sender_user_id := raw_sender_user_id m; raw_date := raw_date m;
  sending_state := sending_state m; edit_date := edit_date m; content := content m;
  msg_id := msg_id m; chat_id := chat_id m; date := date m; sender_id := sender_id m;
  forward := forward m; caption := caption m;
  reply_msg_id := None;
  reply_markup := reply_markup m; reply_markup_rows := reply_markup_rows m;
  links_from_entities := links_from_entities m;
  is_message := is_message m; is_text := is_text m; text_content := text_content m;
  content_type := content_type m; is_poll := is_poll m; poll_question := poll_question m;
  poll_options := poll_options m; file_name := file_name m; local := local m;
  size := size m; human_size := human_size m; duration := duration m;
  is_listened := is_listened m; is_viewed := is_viewed m; is_animated := is_animated m;
  sticker_emoji := sticker_emoji m; is_closed_poll := is_closed_poll m
|}.


(** The message [m] as a reply to the message [reply_to]. *)
Definition with_reply (m : Msg) (reply_to : Z) : Msg := {|
  raw_id := raw_id m; raw_sender_user_id := raw_sender_user_id m; raw_date := raw_date m;
  sending_state := sending_state m; edit_date := edit_date m; content := content m;
  msg_id := msg_id m; chat_id := chat_id m; date := date m; sender_id := sender_id m;
  forward := forward m; caption := caption m;
  reply_msg_id := Some reply_to;
  reply_markup := reply_markup m; reply_markup_rows := reply_markup_rows m;
  links_from_entities := links_from_entities m;
  is_message := is_message m; is_text := is_text m; text_content := text_content m;
  content_type := content_type m; is_poll := is_poll m; poll_question := poll_question m;
  poll_options := poll_options m; file_name := file_name m; local := local m;
  size := size m; human_size := human_size m; duration := duration m;
  is_listened := is_listened m; is_viewed := is_viewed m; is_animated := is_animated m;
  sticker_emoji := sticker_emoji m; is_closed_poll := is_closed_poll m
|}.

(** A model that has the messages 1 to 9 of every chat. *)
Definition model_with_messages : Model.t := {|
  Model.current_chat_record := Sample.empty_chat;
  Model.selected := fun _ => [];
  Model.is_me := fun u => bool_decide (u = Some 1);
  Model.get_message := fun _ i =>
    if (1 <=? i) && (i <=? 9) then Some (Sample.text_msg i 2 "earlier") else None;
  Model.get_user_label := fun u => "user" +:+ Py.str_of_int u;
  Model.is_online := fun _ => false;
  Model.get_user_action := fun _ => (None, None)
|}.


(** ** Newlines of a text *)

(** How many times the character [c] occurs in [s]. *)
Fixpoint count_char (c : ascii) (s : string) : nat :=
  match s with
  | EmptyString => 0
  | String a s' => (if Ascii.eqb a c then 1 else 0) + count_char c s'
  end.

(** A button whose text and URL, when present, have no newline. *)
Definition button_on_one_line (item : Button) : Prop :=
  (forall t, button_text item = Some t -> count_char Py.nl t = 0%nat)
  /\ (forall u, button_url item = Some u -> count_char Py.nl u = 0%nat).

(** The message [m] with the inline keyboard [rows]. *)
Definition with_keyboard (m : Msg) (rows : list (list Button)) : Msg := {|
  raw_id := raw_id m; raw_sender_user_id := raw_sender_user_id m; raw_date := raw_date m;
  sending_state := sending_state m; edit_date := edit_date m; content := content m;
  msg_id := msg_id m; chat_id := chat_id m; date := date m; sender_id := sender_id m;
  forward := forward m; caption := caption m; reply_msg_id := reply_msg_id m;
  reply_markup := true; reply_markup_rows := rows;
  links_from_entities := links_from_entities m;
  is_message := is_message m; is_text := is_text m; text_content := text_content m;
  content_type := content_type m; is_poll := is_poll m; poll_question := poll_question m;
  poll_options := poll_options m; file_name := file_name m; local := local m;
  size := size m; human_size := human_size m; duration := duration m;
  is_listened := is_listened m; is_viewed := is_viewed m; is_animated := is_animated m;
  sticker_emoji := sticker_emoji m; is_closed_poll := is_closed_poll m
|}.

(** Two rows of buttons: a link and a plain button, then a button without
    text. *)
Definition sample_keyboard : list (list Button) :=
  [ [ {| button_text := Some "Open"; button_type := Some "inlineKeyboardButtonTypeUrl";
         button_url := Some "https://example.org" |};
      {| button_text := Some "Later"; button_type := Some "inlineKeyboardButtonTypeCallback";
         button_url := None |} ];
    [ {| button_text := None; button_type := None; button_url := None |} ] ].

(** * Properties *)

(** ** MsgView._collect_msgs_to_draw *)

Lemma len_nonneg {A} (l : list A) : 0 <= Py.len l.
Proof. unfold Py.len. lia. Qed.

Lemma total_lines_snoc (blocks : list (list FormattedLine)) (b : list FormattedLine) :
  MsgView.total_lines (blocks ++ [b]) = MsgView.total_lines blocks + Py.len b.
Proof.
  unfold MsgView.total_lines, Py.len.
  rewrite concat_app, length_app. cbn [concat]. rewrite app_nil_r. lia.
Qed.

(** [l[:k]] has [min(k, len(l))] elements for [k >= 0]. *)
Lemma len_slice_to {A} (l : list A) (k : Z) :
  0 <= k -> Py.len (Py.slice l None (Some k)) = Z.min k (Py.len l).
Proof.
  intros Hk. unfold Py.slice, Py.len. cbn [from_option].
  unfold Py.len, Py.slice_bound. destruct (Z.ltb_spec k 0); [lia|].
  rewrite drop_0, length_take. lia.
Qed.

(** [l[-c:]] has [min(c, len(l))] elements for [c > 0]. *)
Lemma len_slice_last {A} (l : list A) (c : Z) :
  0 < c -> Py.len (Py.slice l (Some (- c)) None) = Z.min c (Py.len l).
Proof.
  intros Hc. unfold Py.slice, Py.len. cbn [from_option].
  unfold Py.len, Py.slice_bound. destruct (Z.ltb_spec (- c) 0); [|lia].
  rewrite length_take, length_drop. lia.
Qed.

(** Where the row budget does hold: with the newest message at the bottom
    and no message before the current one in the list, the loop adds at most
    [lines_available] lines to what it has collected. *)
Lemma collect_loop_within_budget (config : Config.t) (self : MsgView.t)
    (current_msg_idx : Z) (msgs : list (Z * Msg))
    (collected_items blocks : list (list FormattedLine)) (lines_available : Z) :
  Config.LATEST_MSG_ON_TOP config = false ->
  Forall (fun item => current_msg_idx <= item.1) msgs ->
  0 <= lines_available ->
  MsgView.collect_loop config self current_msg_idx msgs collected_items lines_available
  = Py.Ok blocks ->
  MsgView.total_lines blocks <= MsgView.total_lines collected_items + lines_available.
Proof.
  intros Hbottom Hall. revert collected_items lines_available.
  induction Hall as [|[msg_idx msg_item] rest Hidx Hrest IH];
    intros collected_items lines_available Hla Hloop.
  - injection Hloop as <-. lia.
  - cbn [MsgView.collect_loop] in Hloop. cbn [fst] in Hidx.
    destruct (MsgView.message_formatter self msg_item _ _ _) as [msg_lines|e];
      [|discriminate].
    cbn [mbind result_bind Py.bind] in Hloop.
    pose proof (len_nonneg msg_lines) as Hneeded.
    destruct (Z.ltb_spec (lines_available - Py.len msg_lines) 0) as [Hover|Hfits].
    + destruct (Z.eqb_spec msg_idx current_msg_idx) as [->|Hne].
      * injection Hloop as <-. rewrite total_lines_snoc, len_slice_to by lia. lia.
      * destruct (Z.ltb_spec msg_idx current_msg_idx) as [?|_]; [lia|].
        unfold MsgView.boundary_lines in Hloop. rewrite Hbottom in Hloop.
        unfold Py.abs in Hloop.
        replace (Py.len msg_lines - Z.abs (lines_available - Py.len msg_lines))
          with lines_available in Hloop by lia.
        destruct (Z.ltb_spec 0 lines_available) as [Hpos|Hzero].
        -- rewrite len_slice_last in Hloop by lia.
           destruct (Z.ltb_spec 0 (Z.min lines_available (Py.len msg_lines)));
             injection Hloop as <-; [|lia].
           rewrite total_lines_snoc, len_slice_last by lia. lia.
        -- cbn in Hloop. injection Hloop as <-. lia.
    + apply IH in Hloop; [|lia]. rewrite total_lines_snoc in Hloop. lia.
Qed.

(** C1.  The window can hold more lines than the row budget.  With three
    rows under the header and the newest message on top, the current message
    of two lines followed by a message of six lines gives a window of seven
    lines: the message that does not fit is cut to the number of lines it
    overflows by instead of the number of lines left.  Whatever the anchor, a
    message of four lines before the current one is kept whole in three rows,
    and the current message is added after it. *)
Theorem collect_msgs_exceeds_row_budget :
  (let view := Sample.msg_view true 3 in
   exists blocks,
     MsgView._collect_msgs_to_draw (Sample.config true) view 0
       [Sample.msg_of_rows 0 2; Sample.msg_of_rows 1 6] = Py.Ok blocks
     /\ MsgView.h view - MsgView.header_formatter_height view = 3
     /\ MsgView.total_lines blocks = 7)
  /\ (forall latest_on_top,
      let view := Sample.msg_view latest_on_top 3 in
      exists blocks,
        MsgView._collect_msgs_to_draw (Sample.config latest_on_top) view 1
          [Sample.msg_of_rows 0 4; Sample.msg_of_rows 1 2] = Py.Ok blocks
        /\ MsgView.h view - MsgView.header_formatter_height view = 3
        /\ MsgView.total_lines blocks = 6).
Proof.
  split.
  - eexists. split; [vm_compute; reflexivity|]. split; reflexivity.
  - intros []; eexists; (split; [vm_compute; reflexivity|]); split; reflexivity.
Qed.

(** C2.  The current message can be left without a line.  With two rows
    under the header, a message of two lines before the current one fills
    the window, and the current message is added as an empty block. *)
Theorem collect_msgs_focal_block_emptied :
  forall latest_on_top,
    let view := Sample.msg_view latest_on_top 2 in
    exists first,
      MsgView._collect_msgs_to_draw (Sample.config latest_on_top) view 1
        [Sample.msg_of_rows 0 2; Sample.msg_of_rows 1 2] = Py.Ok [first; []]
      /\ 0 < MsgView.h view - MsgView.header_formatter_height view
      /\ length first = 2%nat.
Proof.
  intros []; eexists; (split; [vm_compute; reflexivity|]); split; reflexivity.
Qed.

(** ** MsgFormatter._get_download *)



(** ** ChatView.draw *)

Lemma slice_bound_nonneg (n i : Z) : 0 <= i -> Py.slice_bound n i = Z.min i n.
Proof. intros Hi. unfold Py.slice_bound. destruct (Z.ltb_spec i 0); [lia|reflexivity]. Qed.

(** A slice with non-negative bounds is a [take] of a [drop]. *)
Lemma slice_take_drop {A} (l : list A) (lo k : Z) :
  0 <= lo -> 0 <= k ->
  Py.slice l (Some lo) (Some (k + lo)) = take (Z.to_nat k) (drop (Z.to_nat lo) l).
Proof.
  intros Hlo Hk. unfold Py.slice. cbn [from_option].
  rewrite !slice_bound_nonneg by lia.
  pose proof (len_nonneg l) as Hn. unfold Py.len in *.
  destruct (Z.le_gt_cases (Z.of_nat (length l)) lo) as [Hge|Hlt].
  - rewrite (drop_ge l (Z.to_nat lo)) by lia.
    rewrite (drop_ge l) by lia. by rewrite !take_nil.
  - replace (Z.to_nat (Z.min lo (Z.of_nat (length l)))) with (Z.to_nat lo) by lia.
    destruct (Z.le_gt_cases (k + lo) (Z.of_nat (length l))) as [Hfit|Hover].
    + f_equal. lia.
    + rewrite !take_ge; [reflexivity| |]; rewrite length_drop; lia.
Qed.





(** ** Strings *)

Lemma str_app_cons (ch : ascii) (a b : string) : String ch a +:+ b = String ch (a +:+ b).
Proof. reflexivity. Qed.

Lemma str_app_assoc (a b c : string) : (a +:+ b) +:+ c = a +:+ (b +:+ c).
Proof. induction a as [|ch a IH]; [reflexivity|]. by rewrite !str_app_cons, IH. Qed.

Lemma str_app_nil_r (a : string) : a +:+ "" = a.
Proof. induction a as [|ch a IH]; [reflexivity|]. by rewrite str_app_cons, IH. Qed.

Lemma length_replicate_char (n : nat) (c : ascii) :
  String.length (Py.replicate_char n c) = n.
Proof. induction n as [|n IH]; simpl; [reflexivity|by f_equal]. Qed.

(** [c * n] has [max(0, n)] characters. *)
Lemma length_str_mul (c : ascii) (n : Z) :
  Z.of_nat (String.length (Py.str_mul c n)) = Z.max 0 n.
Proof. unfold Py.str_mul. rewrite length_replicate_char. lia. Qed.

Lemma join_cons (sep x : string) (l : list string) :
  Py.join sep (x :: l)
  = x +:+ match l with [] => "" | _ => sep +:+ Py.join sep l end.
Proof. destruct l; [by rewrite str_app_nil_r|reflexivity]. Qed.

(** Joining a list that ends with a non-empty run [y :: ys]. *)
Lemma join_app (sep : string) (xs : list string) (y : string) (ys : list string) :
  Py.join sep (xs ++ y :: ys)
  = match xs with [] => "" | _ => Py.join sep xs +:+ sep end +:+ Py.join sep (y :: ys).
Proof.
  induction xs as [|x xs IH]; [reflexivity|].
  change ((x :: xs) ++ y :: ys)%list with (x :: (xs ++ y :: ys))%list.
  rewrite (join_cons sep x (xs ++ y :: ys)), (join_cons sep x xs).
  destruct xs as [|x' xs].
  - change ([] ++ y :: ys)%list with (y :: ys). by rewrite !str_app_assoc.
  - change ((x' :: xs) ++ y :: ys)%list with (x' :: (xs ++ y :: ys))%list in *.
    rewrite IH. by rewrite !str_app_assoc.
Qed.

Lemma truthy_str_cons (a : ascii) (s : string) : Py.truthy_str (String a s) = true.
Proof. reflexivity. Qed.

Lemma label_empty (flag : string) : Config.label ∅ flag = flag.
Proof. unfold Config.label. by rewrite lookup_empty. Qed.

(** ** MsgFormatter.format *)

(** Whatever [selected] is, each body line of a block is one run carrying
    [text_color] as its attributes, and the first line is the header. *)
Lemma format_body_attributes (colors : Colors.t) (utils : Utils.t) (config : Config.t)
    (clock : Datetime.ops) (self : MsgFormatter.t) (width : Z) (lines : list FormattedLine) :
  MsgFormatter.format colors utils config clock self width = Py.Ok lines ->
  exists body,
    lines = MsgFormatter.header_line colors utils config clock self :: body
    /\ Forall (fun line => exists t,
                 parts line = [ {| text := t; attributes := MsgFormatter.text_color colors |} ])
              body.
Proof.
  unfold MsgFormatter.format. intros H.
  destruct (MsgFormatter._parse_msg self) as [body0|e]; [|discriminate].
  cbn in H.
  match type of H with
  | (match ?r with _ => _ end) = _ => destruct r as [body3|e]; [|discriminate]
  | mbind _ ?r = _ => destruct r as [body3|e]; [|discriminate]
  end.
  cbn in H. injection H as <-. eexists. split; [reflexivity|].
  apply Forall_map. apply Forall_true. intros line. by eexists.
Qed.

(** A word with [r] OR'd in has all the bits of [r]. *)
Lemma land_lor_absorb (c r : Z) : Z.land (Z.lor c r) r = r.
Proof.
  apply Z.bits_inj'. intros n Hn.
  rewrite Z.land_spec, Z.lor_spec. by destruct (Z.testbit c n), (Z.testbit r n).
Qed.

(** C4, as the specification has it, fails: a selected message of user 2
    with the text [hello] renders to a header whose three runs carry the
    reverse-video bit and one body line whose run does not; its attributes
    are [text_color] alone. *)
Lemma format_selected_body_not_reversed :
  let self := {| MsgFormatter.msg := Sample.text_msg 3 2 "hello";
                 MsgFormatter.model := Sample.model Sample.empty_chat;
                 MsgFormatter.selected := true |} in
  let reverse := Colors.reverse Sample.colors in
  exists header body_run,
    MsgFormatter.format Sample.colors Sample.utils (Sample.config true) Sample.clock self 80
    = Py.Ok [header; {| parts := [body_run] |}]
    /\ Forall (fun run => Z.land (attributes run) reverse = reverse) (parts header)
    /\ text body_run = "hello"
    /\ attributes body_run = MsgFormatter.text_color Sample.colors
    /\ Z.land (attributes body_run) reverse = 0
    /\ Z.land (attributes body_run) reverse <> reverse.
Proof.
  do 2 eexists. split; [vm_compute; reflexivity|].
  split; [repeat constructor|]. repeat split. vm_compute. discriminate.
Qed.

(** C4, as the code has it.  For a message rendered with the selected flag
    set, the block that [format] returns starts with the header line, whose
    three runs (time, sender, flags) have the reverse-video bit OR'd into
    their colour; every line after it is one run of wrapped text with
    [text_color] as its attributes, as for a message that is not selected. *)
Theorem format_selected_header_reversed (colors : Colors.t) (utils : Utils.t)
    (config : Config.t) (clock : Datetime.ops) (self : MsgFormatter.t) (width : Z)
    (lines : list FormattedLine) :
  let reverse := Colors.reverse colors in
  MsgFormatter.selected self = true ->
  MsgFormatter.format colors utils config clock self width = Py.Ok lines ->
  exists header body,
    lines = header :: body
    /\ parts header
       = [ {| text := " " +:+ MsgFormatter.time clock self;
              attributes := Z.lor (MsgFormatter.time_color colors) reverse |};
           {| text := " " +:+ MsgFormatter.sender self;
              attributes := Z.lor (MsgFormatter.sender_color colors utils self) reverse |};
           {| text := " " +:+ MsgFormatter.flags config self;
              attributes := Z.lor (MsgFormatter.flags_color colors) reverse |} ]
    /\ Forall (fun run => Z.land (attributes run) reverse = reverse) (parts header)
    /\ Forall (fun line => exists t,
                 parts line = [ {| text := t; attributes := MsgFormatter.text_color colors |} ])
              body.
Proof.
  intros reverse Hselected Hformat.
  destruct (format_body_attributes _ _ _ _ _ _ _ Hformat) as (body & -> & Hbody).
  exists (MsgFormatter.header_line colors utils config clock self), body.
  split; [reflexivity|].
  assert (Hheader : parts (MsgFormatter.header_line colors utils config clock self)
     = [ {| text := " " +:+ MsgFormatter.time clock self;
            attributes := Z.lor (MsgFormatter.time_color colors) reverse |};
         {| text := " " +:+ MsgFormatter.sender self;
            attributes := Z.lor (MsgFormatter.sender_color colors utils self) reverse |};
         {| text := " " +:+ MsgFormatter.flags config self;
            attributes := Z.lor (MsgFormatter.flags_color colors) reverse |} ]).
  { unfold MsgFormatter.header_line, MsgFormatter._format_attributes, add_part.
    rewrite Hselected. reflexivity. }
  split; [exact Hheader|]. split; [|exact Hbody].
  rewrite Hheader. repeat constructor; apply land_lor_absorb.
Qed.

Lemma format_selected_header_reversed_witness :
  let self := {| MsgFormatter.msg := Sample.text_msg 3 2 "hello";
                 MsgFormatter.model := Sample.model Sample.empty_chat;
                 MsgFormatter.selected := true |} in
  exists lines,
    MsgFormatter.format Sample.colors Sample.utils (Sample.config true) Sample.clock self 80
    = Py.Ok lines
    /\ exists header body,
         lines = header :: body
         /\ parts header
            = [ {| text := " 12:00:00"; attributes := Z.lor (Z.shiftl 7 8) (Z.shiftl 1 18) |};
                {| text := " user2"; attributes := Z.lor (Z.shiftl 3 8) (Z.shiftl 1 18) |};
                {| text := " new"; attributes := Z.lor (Z.shiftl 4 8) (Z.shiftl 1 18) |} ]
         /\ Forall (fun run => Z.land (attributes run) (Z.shiftl 1 18) = Z.shiftl 1 18)
                   (parts header)
         /\ Forall (fun line => exists t,
                      parts line = [ {| text := t; attributes := Z.shiftl 8 8 |} ])
                   body.
Proof.
  eexists. split; [vm_compute; reflexivity|].
  apply (format_selected_header_reversed Sample.colors Sample.utils (Sample.config true)
           Sample.clock
           {| MsgFormatter.msg := Sample.text_msg 3 2 "hello";
              MsgFormatter.model := Sample.model Sample.empty_chat;
              MsgFormatter.selected := true |} 80);
    [reflexivity|vm_compute; reflexivity].
Defined.

(** ** ChatFormatter._get_flags *)

Lemma truthy_str_app_r (a b : string) :
  Py.truthy_str b = true -> Py.truthy_str (a +:+ b) = true.
Proof. destruct a; [done|]. intros _. by rewrite str_app_cons. Qed.

(** A joined list of at least two elements is not the empty string. *)
Lemma truthy_join_two (xs : list string) (y z : string) (zs : list string) :
  Py.truthy_str (Py.join " " (xs ++ y :: z :: zs)) = true.
Proof.
  rewrite join_app. apply truthy_str_app_r.
  rewrite join_cons. apply truthy_str_app_r. reflexivity.
Qed.

(** C5.  For a chat with 1500 unread messages that is not marked as
    unread, not pinned, muted and secret, the flags end with [muted], the
    count capped at 999 and right-aligned in four columns, and [secret], in
    this order, after the flags taken from the model; the string is a space
    and the labels of these flags joined by spaces, which without remapped
    labels ends with [muted  999 secret]. *)
Theorem chat_flags_capped_unread (config : Config.t) (tdlib : Tdlib.t)
    (self : ChatFormatter.t) :
  let c := ChatFormatter.chat self in
  let leading := ChatFormatter.status_flags tdlib self in
  unread_count c = 1500 ->
  is_marked_as_unread c = false ->
  is_pinned c <> Some true ->
  mute_for c <> 0 ->
  Tdlib.get_chat_type tdlib c = Some chatTypeSecret ->
  ChatFormatter.unread_flag c = " 999"
  /\ ChatFormatter.flags_list tdlib self = (leading ++ ["muted"; " 999"; "secret"])%list
  /\ ChatFormatter._get_flags config tdlib self
     = " " +:+ Py.join " " (map (Config.label (Config.CHAT_FLAGS config))
                                (leading ++ ["muted"; " 999"; "secret"]))
  /\ (Config.CHAT_FLAGS config = ∅ ->
      ChatFormatter._get_flags config tdlib self
      = " " +:+ match leading with [] => "" | _ => Py.join " " leading +:+ " " end
            +:+ "muted  999 secret").
Proof.
  intros c leading Hcount Hmarked Hpinned Hmute Hsecret.
  assert (Hunread : ChatFormatter.unread_flag c = " 999").
  { unfold ChatFormatter.unread_flag. rewrite Hmarked, Hcount. reflexivity. }
  assert (Hlist : ChatFormatter.flags_list tdlib self
                  = (leading ++ ["muted"; " 999"; "secret"])%list).
  { unfold ChatFormatter.flags_list. fold c leading. rewrite Hunread, Hsecret.
    destruct (Z.eqb_spec (mute_for c) 0) as [?|_]; [contradiction|].
    rewrite bool_decide_eq_true_2 by reflexivity.
    destruct (is_pinned c) as [[]|]; [contradiction| |]; reflexivity. }
  assert (Hflags : ChatFormatter._get_flags config tdlib self
     = " " +:+ Py.join " " (map (Config.label (Config.CHAT_FLAGS config))
                                (leading ++ ["muted"; " 999"; "secret"]))).
  { unfold ChatFormatter._get_flags. rewrite Hlist, map_app. cbn [map].
    by rewrite truthy_join_two. }
  split; [exact Hunread|]. split; [exact Hlist|]. split; [exact Hflags|].
  intros Hdefault. rewrite Hflags, Hdefault.
  rewrite (List.map_ext (Config.label ∅) (fun f => f) label_empty), List.map_id.
  rewrite join_app. reflexivity.
Qed.

Lemma chat_flags_capped_unread_witness :
  ChatFormatter._get_flags (Sample.config true) Sample.tdlib
    {| ChatFormatter.chat := Sample.busy_secret_chat;
       ChatFormatter.model := Sample.model Sample.empty_chat;
       ChatFormatter.selected := false |}
  = " muted  999 secret".
Proof.
  apply (chat_flags_capped_unread (Sample.config true) Sample.tdlib
           {| ChatFormatter.chat := Sample.busy_secret_chat;
              ChatFormatter.model := Sample.model Sample.empty_chat;
              ChatFormatter.selected := false |});
    (reflexivity || discriminate).
Defined.

(** ** MsgFormatter.flags *)

Lemma count_read_flags_app (a b : list string) :
  count_read_flags (a ++ b) = (count_read_flags a + count_read_flags b)%nat.
Proof. unfold count_read_flags. by rewrite filter_app, length_app. Qed.

Lemma count_read_flags_other (f : string) :
  f ∉ read_flag_names -> count_read_flags [f] = 0%nat.
Proof.
  intros Hf. unfold count_read_flags.
  rewrite filter_cons_False by exact Hf. reflexivity.
Qed.

Lemma count_read_flags_nil : count_read_flags [] = 0%nat.
Proof. reflexivity. Qed.

(** The chain on the read markers appends at most one flag. *)
Lemma read_flags_at_most_one (self : MsgFormatter.t) :
  (count_read_flags (MsgFormatter.read_flags self) <= 1)%nat.
Proof.
  unfold MsgFormatter.read_flags.
  repeat match goal with
         | |- context [if ?b then _ else _] => destruct b
         end; vm_compute; lia.
Qed.

(** Membership in an explicit list of strings, refuted element by element. *)
Ltac refute_elem_of H :=
  repeat (apply elem_of_cons in H as [H|H]; [discriminate H|]);
  by apply elem_of_nil in H.

(** The label of a TDLib sending state is not a read-status flag. *)
Lemma sending_state_label_other (state_type : string) :
  String.prefix "messageSendingState" state_type = true ->
  default state_type (MsgFormatter.states !! state_type) ∉ read_flag_names.
Proof.
  intros Hprefix. unfold MsgFormatter.states, read_flag_names.
  destruct (decide (state_type = "messageSendingStateFailed")) as [->|Hfailed].
  { rewrite lookup_insert_eq. intros Hin. refute_elem_of Hin. }
  rewrite lookup_insert_ne by congruence.
  destruct (decide (state_type = "messageSendingStatePending")) as [->|Hpending].
  { rewrite lookup_insert_eq. intros Hin. refute_elem_of Hin. }
  rewrite lookup_insert_ne by congruence. rewrite lookup_empty. cbn [default].
  intros Hin.
  repeat (apply elem_of_cons in Hin as [->|Hin]; [discriminate Hprefix|]).
  by apply elem_of_nil in Hin.
Qed.

(** C6.  For a message whose sending state, if any, is one of TDLib, at
    most one of the flags that [flags] joins is [new], [unseen] or [seen];
    the string is the labels of these flags joined by spaces. *)
Theorem msg_flags_at_most_one_read_flag (config : Config.t) (self : MsgFormatter.t) :
  tdlib_sending_state (MsgFormatter.msg self) ->
  (count_read_flags (MsgFormatter.flags_list self) <= 1)%nat
  /\ MsgFormatter.flags config self
     = Py.join " " (map (Config.label (Config.MSG_FLAGS config))
                        (MsgFormatter.flags_list self)).
Proof.
  intros Hstate. split.
  - unfold MsgFormatter.flags_list. rewrite !count_read_flags_app.
    pose proof (read_flags_at_most_one self) as Hread.
    assert (Hsel : forall b : bool,
               count_read_flags (if b then ["selected"] else []) = 0%nat)
      by (by intros []).
    assert (Hfwd : count_read_flags
                     (if forward (MsgFormatter.msg self) then ["forwarded"] else [])
                   = 0%nat) by (by destruct (forward _)).
    assert (Hedit : count_read_flags
                      (if edit_date (MsgFormatter.msg self) =? 0 then [] else ["edited"])
                    = 0%nat) by (by destruct (_ =? _)).
    assert (Hsend : count_read_flags
                      match sending_state (MsgFormatter.msg self) with
                      | Some state_type =>
                          [default state_type (MsgFormatter.states !! state_type)]
                      | None => []
                      end = 0%nat).
    { destruct (sending_state (MsgFormatter.msg self)) as [state_type|] eqn:Hs;
        [|reflexivity].
      apply count_read_flags_other, sending_state_label_other. by apply Hstate. }
    rewrite Hsel, Hfwd, Hedit, Hsend. lia.
  - unfold MsgFormatter.flags. by destruct (MsgFormatter.flags_list self).
Qed.

Lemma msg_flags_at_most_one_read_flag_witness :
  let self := {| MsgFormatter.msg := Sample.text_msg 3 2 "hello";
                 MsgFormatter.model := Sample.model Sample.empty_chat;
                 MsgFormatter.selected := false |} in
  tdlib_sending_state (MsgFormatter.msg self)
  /\ (count_read_flags (MsgFormatter.flags_list self) <= 1)%nat.
Proof.
  assert (H : tdlib_sending_state (Sample.text_msg 3 2 "hello"))
    by (intros state_type [=]).
  split; [exact H|].
  apply (msg_flags_at_most_one_read_flag (Sample.config true)
           {| MsgFormatter.msg := Sample.text_msg 3 2 "hello";
              MsgFormatter.model := Sample.model Sample.empty_chat;
              MsgFormatter.selected := false |} H).
Defined.

(** ** ChatFormatter.format *)

(** C7, as the specification has it, fails: the value of [spacer_len] is
    negative as soon as the three fields and the three separating columns
    are wider than the window.  For a chat titled [Bob] without a message,
    in five columns, it is [5 - 9 - 3 - 5 - 3 = -15], and the spacer drawn
    is the empty string. *)
Lemma chat_spacer_len_negative :
  let self := {| ChatFormatter.chat := Sample.empty_chat;
                 ChatFormatter.model := Sample.model Sample.empty_chat;
                 ChatFormatter.selected := false |} in
  let flags := ChatFormatter._get_flags (Sample.config true) Sample.tdlib self in
  ChatFormatter.date Sample.clock self = Py.Ok "<No date>"
  /\ ChatFormatter.spacer_len Sample.utils 5 "<No date>" (ChatFormatter.title self) flags = -15
  /\ ~ 0 <= ChatFormatter.spacer_len Sample.utils 5 "<No date>" (ChatFormatter.title self) flags
  /\ exists first second spacer,
       ChatFormatter.format Sample.colors Sample.utils (Sample.config true) Sample.clock
         Sample.tdlib self 5 = Py.Ok [first; second]
       /\ parts first !! 2%nat = Some spacer
       /\ text spacer = "".
Proof.
  split; [reflexivity|]. split; [reflexivity|]. split; [vm_compute; tauto|].
  do 3 eexists. split; [vm_compute; reflexivity|]. split; reflexivity.
Qed.

(** C7, as the code has it.  Whenever [format] returns, the third run of
    the first line is [spacer_len] spaces in the colour of the title, where
    [spacer_len] is the width minus the display widths of the date, the
    title and the flags, minus 3; a string repeated a negative number of
    times is empty, so the run has [max(0, spacer_len)] characters. *)
Theorem chat_spacer_run_clamped (colors : Colors.t) (utils : Utils.t) (config : Config.t)
    (clock : Datetime.ops) (tdlib : Tdlib.t) (self : ChatFormatter.t) (width : Z)
    (lines : list FormattedLine) :
  ChatFormatter.format colors utils config clock tdlib self width = Py.Ok lines ->
  exists date first second,
    ChatFormatter.date clock self = Py.Ok date
    /\ lines = [first; second]
    /\ let spacer_len :=
         ChatFormatter.spacer_len utils width date (ChatFormatter.title self)
           (ChatFormatter._get_flags config tdlib self) in
       parts first !! 2%nat
       = Some {| text := Py.str_mul " " spacer_len;
                 attributes := ChatFormatter.title_color colors utils config self |}
       /\ Z.of_nat (String.length (Py.str_mul " " spacer_len)) = Z.max 0 spacer_len.
Proof.
  unfold ChatFormatter.format. intros H.
  destruct (ChatFormatter._get_last_msg_data tdlib self) as [[last_msg_sender last_msg]|e];
    [|discriminate].
  cbn in H.
  destruct (ChatFormatter.date clock self) as [date|e]; [|discriminate].
  cbn in H. injection H as <-.
  do 3 eexists. split; [reflexivity|]. split; [reflexivity|].
  split; [reflexivity|apply length_str_mul].
Qed.

Lemma chat_spacer_run_clamped_witness :
  let self := {| ChatFormatter.chat := Sample.busy_secret_chat;
                 ChatFormatter.model := Sample.model Sample.empty_chat;
                 ChatFormatter.selected := true |} in
  exists lines,
    ChatFormatter.format Sample.colors Sample.utils (Sample.config true) Sample.clock
      Sample.tdlib self 40 = Py.Ok lines
    /\ exists date first second,
         ChatFormatter.date Sample.clock self = Py.Ok date
         /\ lines = [first; second]
         /\ let spacer_len :=
              ChatFormatter.spacer_len Sample.utils 40 date "Eve" " muted  999 secret" in
            parts first !! 2%nat
            = Some {| text := Py.str_mul " " spacer_len;
                      attributes := Z.lor (Z.shiftl 7 8) (Z.shiftl 1 18) |}
            /\ Z.of_nat (String.length (Py.str_mul " " spacer_len)) = Z.max 0 spacer_len.
Proof.
  eexists. split; [vm_compute; reflexivity|].
  apply (chat_spacer_run_clamped Sample.colors Sample.utils (Sample.config true)
           Sample.clock Sample.tdlib
           {| ChatFormatter.chat := Sample.busy_secret_chat;
              ChatFormatter.model := Sample.model Sample.empty_chat;
              ChatFormatter.selected := true |} 40).
  vm_compute. reflexivity.
Defined.

(** C9.  For a chat without a last message [format] returns its two lines:
    the first starts with the run [ <No date>] in the colour of the date;
    the second is the indent of seven columns, an empty sender run and the
    subtitle [<No messages yet>] cut to the [width - 10] columns left. *)
Theorem chat_format_without_last_message (colors : Colors.t) (utils : Utils.t)
    (config : Config.t) (clock : Datetime.ops) (tdlib : Tdlib.t)
    (self : ChatFormatter.t) (width : Z) :
  last_message (ChatFormatter.chat self) = None ->
  ChatFormatter.date clock self = Py.Ok "<No date>"
  /\ ChatFormatter._get_last_msg_data tdlib self = Py.Ok (None, "<No messages yet>")
  /\ exists first,
       ChatFormatter.format colors utils config clock tdlib self width
       = Py.Ok [first;
                {| parts :=
                     [ {| text := "       ";
                          attributes := ChatFormatter.subtitle_color colors |};
                       {| text := "";
                          attributes := ChatFormatter.sender_color colors utils "" |};
                       {| text := Utils.truncate_to_len utils "<No messages yet>"
                                    (width - Utils.string_len_dwc utils "" - 10);
                          attributes := ChatFormatter.subtitle_color colors |} ] |}]
       /\ parts first !! 0%nat
          = Some {| text := " <No date>";
                    attributes := ChatFormatter.date_color colors self |}.
Proof.
  intros Hnone.
  assert (Hdate : ChatFormatter.date clock self = Py.Ok "<No date>")
    by (unfold ChatFormatter.date; by rewrite Hnone).
  assert (Hlast : ChatFormatter._get_last_msg_data tdlib self
                  = Py.Ok (None, "<No messages yet>"))
    by (unfold ChatFormatter._get_last_msg_data, ChatFormatter._get_last_msg;
        by rewrite Hnone).
  split; [exact Hdate|]. split; [exact Hlast|].
  unfold ChatFormatter.format. rewrite Hlast. cbn [mbind result_bind Py.bind].
  rewrite Hdate. cbn [mbind result_bind Py.bind].
  eexists. split; reflexivity.
Qed.

Lemma chat_format_without_last_message_witness :
  ChatFormatter.date Sample.clock
    {| ChatFormatter.chat := Sample.empty_chat;
       ChatFormatter.model := Sample.model Sample.empty_chat;
       ChatFormatter.selected := false |} = Py.Ok "<No date>".
Proof.
  apply (chat_format_without_last_message Sample.colors Sample.utils (Sample.config true)
           Sample.clock Sample.tdlib
           {| ChatFormatter.chat := Sample.empty_chat;
              ChatFormatter.model := Sample.model Sample.empty_chat;
              ChatFormatter.selected := false |} 40).
  reflexivity.
Defined.

(** ** View.get_keys *)

Lemma settled_true (bindings : list string) (keys : string) :
  (forall p, p ∈ bindings -> Py.startswith p keys = true -> p = keys) ->
  View.settled bindings keys = true.
Proof.
  intros H. unfold View.settled. apply forallb_forall. intros p Hp.
  apply list_elem_of_In in Hp.
  destruct (Py.startswith p keys) eqn:Hstart.
  - rewrite (H p Hp Hstart), String.eqb_refl. reflexivity.
  - by rewrite orb_true_r.
Qed.

Lemma settled_false (bindings : list string) (keys p : string) :
  p ∈ bindings -> p <> keys -> Py.startswith p keys = true ->
  View.settled bindings keys = false.
Proof.
  intros Hp Hne Hstart. unfold View.settled.
  apply not_true_is_false. intros Hall.
  rewrite forallb_forall in Hall.
  specialize (Hall p (proj1 (list_elem_of_In _ _) Hp)).
  rewrite Hstart, orb_false_r in Hall.
  by apply String.eqb_eq in Hall.
Qed.

(** The cycle on the codes of [3], [d], [d], from what the table answers
    to the keys [d] and [dd]. *)
Lemma get_keys_digit_d_d (curses : Curses.t) (bindings : list string) (unread : list Z) :
  Curses.unctrl curses 51 = Py.Ok "3" ->
  Curses.unctrl curses 100 = Py.Ok "d" ->
  View.settled bindings "d" = false ->
  View.settled bindings "dd" = true ->
  View.get_keys curses bindings (51 :: 100 :: 100 :: unread) = View.Done (3, "dd") unread
  /\ View.get_keys curses bindings [51] = View.Waiting
  /\ View.get_keys curses bindings [51; 100] = View.Waiting.
Proof.
  intros H3 Hd Hone Htwo.
  unfold View.get_keys, MAX_KEYBINDING_LENGTH.
  cbn [View.get_keys_loop Z.eqb orb Pos.eqb].
  rewrite H3, Hd.
  change (Py.isdigit "3") with true. change (Py.isdigit "d") with false.
  cbv iota.
  change ("" +:+ "3") with "3". change ("" +:+ "d") with "d".
  change ("d" +:+ "d") with "dd".
  rewrite Hone, Htwo. split; [reflexivity|]. split; reflexivity.
Qed.

(** C8.  With [dd] in the table and no longer binding that starts with
    [dd], the codes of [3], [d], [d] decode to [(3, "dd")] and nothing more is
    read: the digit goes to the repeat prefix and the cycle goes on, after
    the first [d] the cycle goes on because [dd] starts with [d], and after
    the second the keys are settled. *)
Theorem get_keys_three_dd (curses : Curses.t) (bindings : list string) (unread : list Z) :
  Curses.unctrl curses 51 = Py.Ok "3" ->
  Curses.unctrl curses 100 = Py.Ok "d" ->
  "dd" ∈ bindings ->
  (forall p, p ∈ bindings -> Py.startswith p "dd" = true -> p = "dd") ->
  View.get_keys curses bindings (51 :: 100 :: 100 :: unread) = View.Done (3, "dd") unread
  /\ View.get_keys curses bindings [51] = View.Waiting
  /\ View.get_keys curses bindings [51; 100] = View.Waiting
  /\ View.settled bindings "d" = false
  /\ View.settled bindings "dd" = true.
Proof.
  intros H3 Hd Hin Hext.
  assert (Hone : View.settled bindings "d" = false)
    by (by apply (settled_false bindings "d" "dd")).
  assert (Htwo : View.settled bindings "dd" = true) by (by apply settled_true).
  destruct (get_keys_digit_d_d curses bindings unread H3 Hd Hone Htwo) as (? & ? & ?).
  repeat split; assumption.
Qed.

Lemma get_keys_three_dd_witness :
  View.get_keys Sample.curses canonical_keybindings [51; 100; 100] = View.Done (3, "dd") [].
Proof.
  apply (get_keys_three_dd Sample.curses canonical_keybindings []).
  - reflexivity.
  - reflexivity.
  - unfold canonical_keybindings. apply list_elem_of_here.
  - intros p Hp Hstart. unfold canonical_keybindings in Hp.
    repeat (apply elem_of_cons in Hp as [->|Hp]; [first [reflexivity|discriminate Hstart]|]).
    by apply elem_of_nil in Hp.
Defined.

(** A string of two characters that starts with [dd] is [dd]. *)
Lemma startswith_dd_length2 (p : string) :
  String.length p = 2%nat -> Py.startswith p "dd" = true -> p = "dd".
Proof.
  destruct p as [|a [|b [|c p]]]; try discriminate. intros _.
  unfold Py.startswith. cbn [String.prefix].
  destruct (Ascii.ascii_dec "d" a) as [<-|]; [|discriminate].
  destruct (Ascii.ascii_dec "d" b) as [<-|]; [|discriminate].
  reflexivity.
Qed.

Lemma length_str_app (a b : string) :
  String.length (a +:+ b) = (String.length a + String.length b)%nat.
Proof. induction a as [|ch a IH]; [reflexivity|]. rewrite str_app_cons. cbn. by rewrite IH. Qed.

(** A layout that maps characters to single characters keeps the length
    of a binding. *)
Lemma mapped_binding_length (layout : gmap ascii string) (binding mapped : string) :
  (forall c s, layout !! c = Some s -> String.length s = 1%nat) ->
  mapped_binding layout binding = Py.Ok mapped ->
  String.length mapped = String.length binding.
Proof.
  intros Hsingle. revert mapped.
  induction binding as [|char rest IH]; intros mapped Hmap.
  - by injection Hmap as <-.
  - cbn [mapped_binding] in Hmap.
    destruct (layout !! char) as [s|] eqn:Hchar; [|discriminate].
    destruct (mapped_binding layout rest) as [tail|e]; [|discriminate].
    cbn in Hmap. injection Hmap as <-.
    rewrite length_str_app, (Hsingle _ _ Hchar), (IH tail eq_refl). reflexivity.
Qed.

Lemma mapped_bindings_length (layout : gmap ascii string) (bindings mapped : list string) :
  (forall c s, layout !! c = Some s -> String.length s = 1%nat) ->
  Forall (fun b => String.length b = 2%nat) bindings ->
  mapped_bindings layout bindings = Py.Ok mapped ->
  Forall (fun b => String.length b = 2%nat) mapped.
Proof.
  intros Hsingle Hall. revert mapped.
  induction Hall as [|b bs Hb Hbs IH]; intros mapped Hmap.
  - injection Hmap as <-. constructor.
  - cbn [mapped_bindings] in Hmap.
    destruct (mapped_binding layout b) as [m|e] eqn:Hm; [|discriminate].
    destruct (mapped_bindings layout bs) as [ms|e]; [|discriminate].
    cbn in Hmap. injection Hmap as <-.
    constructor; [|by apply IH].
    by rewrite (mapped_binding_length _ _ _ Hsingle Hm).
Qed.

Lemma canonical_keybindings_length :
  Forall (fun b => String.length b = 2%nat) canonical_keybindings.
Proof. repeat constructor. Qed.

(** The table of the module, whatever single-character layout is
    configured, has [dd] and no longer binding that starts with [dd]: the
    codes of [3], [d], [d] decode to [(3, "dd")] with it. *)
Lemma get_keys_three_dd_configured (curses : Curses.t) (config : Config.t)
    (bindings : list string) (unread : list Z) :
  Curses.unctrl curses 51 = Py.Ok "3" ->
  Curses.unctrl curses 100 = Py.Ok "d" ->
  (forall c s, Config.LAYOUT_MAPPING config !! c = Some s -> String.length s = 1%nat) ->
  MULTICHAR_KEYBINDINGS config = Py.Ok bindings ->
  View.get_keys curses bindings (51 :: 100 :: 100 :: unread) = View.Done (3, "dd") unread.
Proof.
  intros H3 Hd Hsingle Htable.
  assert (Hlen : Forall (fun b => String.length b = 2%nat) bindings
                 /\ "dd" ∈ bindings).
  { unfold MULTICHAR_KEYBINDINGS in Htable.
    destruct (bool_decide _).
    - injection Htable as <-. split; [apply canonical_keybindings_length|].
      apply list_elem_of_here.
    - destruct (mapped_bindings _ canonical_keybindings) as [mapped|e] eqn:Hmapped;
        [|discriminate].
      cbn in Htable. injection Htable as <-. split.
      + apply (Forall_app_2 _ canonical_keybindings mapped);
          [apply canonical_keybindings_length|].
        exact (mapped_bindings_length _ _ _ Hsingle canonical_keybindings_length Hmapped).
      + apply list_elem_of_here. }
  destruct Hlen as [Hlen Hin].
  apply get_keys_digit_d_d; [exact H3|exact Hd| |].
  - by apply (settled_false bindings "d" "dd").
  - apply settled_true. intros p Hp Hstart.
    apply startswith_dd_length2; [|exact Hstart].
    by apply (proj1 (Forall_forall _ _) Hlen).
Qed.

(** * Further properties *)

(** ** View.get_keys: one turn of the loop *)

Section GetKeysSteps.
Variable curses : Curses.t.
Variable bindings : list string.

Lemma not_lead_byte (ch : Z) : ch <> 208 -> ch <> 209 -> (ch =? 208) || (ch =? 209) = false.
Proof. intros H1 H2. by rewrite (proj2 (Z.eqb_neq _ _) H1), (proj2 (Z.eqb_neq _ _) H2). Qed.

(** A code that decodes to digits goes to the repeat prefix. *)
Lemma get_keys_loop_digit (fuel : nat) (ch : Z) (rest : list Z) (keys rf d : string) :
  ch <> 208 -> ch <> 209 ->
  Curses.unctrl curses ch = Py.Ok d -> Py.isdigit d = true ->
  View.get_keys_loop curses bindings (S fuel) (ch :: rest) keys rf
  = View.get_keys_loop curses bindings fuel rest keys (rf +:+ d).
Proof.
  intros H1 H2 Hd Hdigit. cbn [View.get_keys_loop].
  by rewrite (not_lead_byte ch H1 H2), Hd, Hdigit.
Qed.

(** A code that decodes to anything else is added to the keys, and the
    cycle ends if the table is settled on them. *)
Lemma get_keys_loop_key (fuel : nat) (ch : Z) (rest : list Z) (keys rf key : string) :
  ch <> 208 -> ch <> 209 ->
  Curses.unctrl curses ch = Py.Ok key -> Py.isdigit key = false ->
  View.get_keys_loop curses bindings (S fuel) (ch :: rest) keys rf
  = if View.settled bindings (keys +:+ key)
    then View.Done (keys +:+ key, rf) rest
    else View.get_keys_loop curses bindings fuel rest (keys +:+ key) rf.
Proof.
  intros H1 H2 Hkey Hdigit. cbn [View.get_keys_loop].
  by rewrite (not_lead_byte ch H1 H2), Hkey, Hdigit.
Qed.

(** A code that does not decode ends the cycle. *)
Lemma get_keys_loop_undecodable (fuel : nat) (ch : Z) (rest : list Z) (keys rf : string)
    (e : Py.exc) :
  ch <> 208 -> ch <> 209 ->
  Curses.unctrl curses ch = Py.Raise e ->
  View.get_keys_loop curses bindings (S fuel) (ch :: rest) keys rf
  = View.Done (keys, rf) rest.
Proof.
  intros H1 H2 Hraise. cbn [View.get_keys_loop].
  by rewrite (not_lead_byte ch H1 H2), Hraise.
Qed.

(** Digits use up turns of the loop and leave the keys as they are. *)
Lemma get_keys_loop_digits (codes : list Z) (ds : list string) (fuel : nat)
    (rest : list Z) (keys rf : string) :
  decodes_to_digits curses codes ds ->
  View.get_keys_loop curses bindings (length codes + fuel) (codes ++ rest) keys rf
  = View.get_keys_loop curses bindings fuel rest keys (rf +:+ String.concat "" ds).
Proof.
  intros Hall. revert rf.
  induction Hall as [|ch d codes ds (H1 & H2 & Hd & Hdigit) _ IH]; intros rf.
  - cbn. by rewrite str_app_nil_r.
  - cbn [length Nat.add app].
    rewrite (get_keys_loop_digit _ _ _ _ _ d H1 H2 Hd Hdigit), IH.
    cbn [String.concat]. destruct ds; by rewrite ?str_app_nil_r, ?str_app_assoc.
Qed.

End GetKeysSteps.

(** ** View.get_keys: codes that are not keys *)

(** X1.  A code that [unctrl] cannot decode ends the cycle at once: after
    fewer than five digit codes the result is the number they spell (1 when
    there is none) with the token [UNKNOWN], and the codes after the bad one
    are left unread. *)
Theorem get_keys_undecodable_code (curses : Curses.t) (bindings : list string)
    (codes : list Z) (ds : list string) (ch : Z) (e : Py.exc) (unread : list Z) :
  decodes_to_digits curses codes ds ->
  (length codes < 5)%nat ->
  ch <> 208 -> ch <> 209 ->
  Curses.unctrl curses ch = Py.Raise e ->
  View.get_keys curses bindings (codes ++ ch :: unread)
  = View.Done (Utils.num (String.concat "" ds) 1, "UNKNOWN") unread.
Proof.
  intros Hdigits Hlen H1 H2 Hraise. unfold View.get_keys, MAX_KEYBINDING_LENGTH.
  replace 5%nat with (length codes + S (4 - length codes))%nat by lia.
  rewrite (get_keys_loop_digits curses bindings codes ds _ _ _ _ Hdigits).
  rewrite (get_keys_loop_undecodable curses bindings _ ch _ _ _ e H1 H2 Hraise).
  reflexivity.
Qed.

Lemma get_keys_undecodable_code_witness :
  View.get_keys Sample.curses canonical_keybindings [300; 100]
  = View.Done (1, "UNKNOWN") [100].
Proof.
  apply (get_keys_undecodable_code Sample.curses canonical_keybindings [] [] 300
           Py.OverflowError [100]).
  - constructor.
  - cbn. lia.
  - lia.
  - lia.
  - reflexivity.
Defined.

(** X2.  Digits count as turns of the loop: five digit codes in a row end
    the cycle with the token [UNKNOWN], whatever code follows, which is left
    unread. *)
Theorem get_keys_five_digits (curses : Curses.t) (bindings : list string)
    (codes : list Z) (ds : list string) (unread : list Z) :
  decodes_to_digits curses codes ds ->
  length codes = 5%nat ->
  View.get_keys curses bindings (codes ++ unread)
  = View.Done (Utils.num (String.concat "" ds) 1, "UNKNOWN") unread.
Proof.
  intros Hdigits Hlen. unfold View.get_keys, MAX_KEYBINDING_LENGTH.
  replace 5%nat with (length codes + 0)%nat by lia.
  rewrite (get_keys_loop_digits curses bindings codes ds _ _ _ _ Hdigits).
  reflexivity.
Qed.

Lemma get_keys_five_digits_witness :
  View.get_keys Sample.curses canonical_keybindings [49; 50; 51; 52; 53; 100; 100]
  = View.Done (12345, "UNKNOWN") [100; 100].
Proof.
  apply (get_keys_five_digits Sample.curses canonical_keybindings
           [49; 50; 51; 52; 53] ["1"; "2"; "3"; "4"; "5"] [100; 100]).
  - repeat constructor; lia.
  - reflexivity.
Defined.

(** The loop reads a prefix of its input: at most two codes in each turn,
    and at least one if it has a turn. *)
Lemma get_keys_loop_reads (curses : Curses.t) (bindings : list string) (fuel : nat)
    (input : list Z) (keys rf : string) (out : string * string) (unread : list Z) :
  View.get_keys_loop curses bindings fuel input keys rf = View.Done out unread ->
  exists consumed,
    input = (consumed ++ unread)%list
    /\ (length consumed <= 2 * fuel)%nat
    /\ (1 <= fuel -> 1 <= length consumed)%nat.
Proof.
  revert input keys rf.
  induction fuel as [|fuel IH]; intros input keys rf Hloop.
  - injection Hloop as _ <-. exists []. split; [reflexivity|]. cbn. lia.
  - cbn [View.get_keys_loop] in Hloop.
    destruct input as [|ch input1]; [discriminate|].
    assert (Hmore : forall keys' rf' input',
               View.get_keys_loop curses bindings fuel input' keys' rf'
               = View.Done out unread ->
               forall pre, (length pre <= 2)%nat -> (1 <= length pre)%nat ->
               ch :: input1 = (pre ++ input')%list ->
               exists consumed,
                 ch :: input1 = (consumed ++ unread)%list
                 /\ (length consumed <= 2 * S fuel)%nat
                 /\ (1 <= S fuel -> 1 <= length consumed)%nat).
    { intros keys' rf' input' Hrec pre Hpre2 Hpre1 Hsplit.
      destruct (IH _ _ _ Hrec) as (consumed & -> & Hlen & _).
      exists (pre ++ consumed)%list. rewrite <- app_assoc. split; [exact Hsplit|].
      rewrite length_app. lia. }
    assert (Hstop : forall pre, (length pre <= 2)%nat -> (1 <= length pre)%nat ->
               ch :: input1 = (pre ++ unread)%list ->
               exists consumed,
                 ch :: input1 = (consumed ++ unread)%list
                 /\ (length consumed <= 2 * S fuel)%nat
                 /\ (1 <= S fuel -> 1 <= length consumed)%nat).
    { intros pre Hpre2 Hpre1 Hsplit. exists pre. split; [exact Hsplit|]. lia. }
    destruct ((ch =? 208) || (ch =? 209)).
    + destruct input1 as [|second_ch input2]; [discriminate|].
      destruct (View.decode_pair ch second_ch) as [key|e]; [|discriminate].
      destruct (View.settled bindings (keys +:+ key)).
      * injection Hloop as _ <-. apply (Hstop [ch; second_ch]); cbn; (lia || reflexivity).
      * apply (Hmore _ _ _ Hloop [ch; second_ch]); cbn; (lia || reflexivity).
    + destruct (Curses.unctrl curses ch) as [key|e].
      * destruct (Py.isdigit key).
        -- apply (Hmore _ _ _ Hloop [ch]); cbn; (lia || reflexivity).
        -- destruct (View.settled bindings (keys +:+ key)).
           ++ injection Hloop as _ <-. apply (Hstop [ch]); cbn; (lia || reflexivity).
           ++ apply (Hmore _ _ _ Hloop [ch]); cbn; (lia || reflexivity).
      * injection Hloop as _ <-. apply (Hstop [ch]); cbn; (lia || reflexivity).
Qed.

(** X3.  A decode cycle that returns has read a non-empty prefix of the
    codes, of at most ten codes (five turns, two codes in a turn for a
    two-byte key), and its token is never the empty string. *)
Theorem get_keys_reads_bounded (curses : Curses.t) (bindings : list string)
    (input : list Z) (n : Z) (token : string) (unread : list Z) :
  View.get_keys curses bindings input = View.Done (n, token) unread ->
  (exists consumed,
     input = (consumed ++ unread)%list /\ (1 <= length consumed <= 10)%nat)
  /\ token <> "".
Proof.
  unfold View.get_keys, MAX_KEYBINDING_LENGTH. intros Hget.
  destruct (View.get_keys_loop curses bindings 5 input "" "")
    as [[keys rf] unread'| |e] eqn:Hloop; try discriminate.
  injection Hget as _ <- <-.
  split.
  - destruct (get_keys_loop_reads _ _ _ _ _ _ _ _ Hloop) as (consumed & -> & Hmax & Hmin).
    exists consumed. split; [reflexivity|]. lia.
  - destruct keys; cbn; discriminate.
Qed.

Lemma get_keys_reads_bounded_witness :
  (exists consumed,
     [51; 100; 100; 7] = (consumed ++ [7])%list /\ (1 <= length consumed <= 10)%nat)
  /\ "dd" <> "".
Proof.
  apply (get_keys_reads_bounded Sample.curses canonical_keybindings [51; 100; 100; 7] 3).
  vm_compute. reflexivity.
Defined.

(** ** View.get_keys with the canonical table *)

(** A string that starts with a string of its own length is that string. *)
Lemma startswith_same_length (p keys : string) :
  String.length p = String.length keys -> Py.startswith p keys = true -> p = keys.
Proof.
  unfold Py.startswith. revert p.
  induction keys as [|k keys IH]; intros [|a p] Hlen Hstart; try discriminate.
  - reflexivity.
  - cbn [String.prefix] in Hstart.
    destruct (Ascii.ascii_dec k a) as [->|]; [|discriminate].
    f_equal. apply IH; [by injection Hlen|exact Hstart].
Qed.

(** Every binding of the canonical table has two characters, so the table
    is settled on any two characters. *)
Lemma settled_canonical_two (keys : string) :
  String.length keys = 2%nat -> View.settled canonical_keybindings keys = true.
Proof.
  intros Hlen. apply settled_true. intros p Hp Hstart.
  apply startswith_same_length; [|exact Hstart].
  rewrite Hlen. by apply (proj1 (Forall_forall _ _) canonical_keybindings_length).
Qed.

(** The table is settled on one character unless a binding starts with it. *)
Lemma settled_canonical_one (c : ascii) :
  View.settled canonical_keybindings (String c "") = negb (is_binding_start c).
Proof. destruct c as [[] [] [] [] [] [] [] []]; vm_compute; reflexivity. Qed.

(** X4.  With the canonical table a cycle reads at most two keys: a key of
    one character that is not [d], [s], [n] or [b] is returned at once and
    the next code is left unread; after one of these four letters the next
    key is read and the two are returned, whether they are a binding or not. *)
Theorem get_keys_canonical_two_keys (curses : Curses.t) (ch1 ch2 : Z) (c1 c2 : ascii)
    (unread : list Z) :
  ch1 <> 208 -> ch1 <> 209 -> ch2 <> 208 -> ch2 <> 209 ->
  Curses.unctrl curses ch1 = Py.Ok (String c1 "") ->
  Curses.unctrl curses ch2 = Py.Ok (String c2 "") ->
  Py.is_digit_char c1 = false ->
  Py.is_digit_char c2 = false ->
  View.get_keys curses canonical_keybindings (ch1 :: ch2 :: unread)
  = if is_binding_start c1
    then View.Done (1, String c1 (String c2 "")) unread
    else View.Done (1, String c1 "") (ch2 :: unread).
Proof.
  intros H1 H1' H2 H2' Hc1 Hc2 Hd1 Hd2.
  assert (Hnd1 : Py.isdigit (String c1 "") = false)
    by (unfold Py.isdigit; cbn; by rewrite Hd1).
  assert (Hnd2 : Py.isdigit (String c2 "") = false)
    by (unfold Py.isdigit; cbn; by rewrite Hd2).
  unfold View.get_keys, MAX_KEYBINDING_LENGTH.
  rewrite (get_keys_loop_key curses _ _ ch1 _ _ _ _ H1 H1' Hc1 Hnd1).
  change ("" +:+ String c1 "") with (String c1 "").
  rewrite settled_canonical_one.
  destruct (is_binding_start c1); cbn [negb]; [|reflexivity].
  rewrite (get_keys_loop_key curses _ _ ch2 _ _ _ _ H2 H2' Hc2 Hnd2).
  change (String c1 "" +:+ String c2 "") with (String c1 (String c2 "")).
  by rewrite settled_canonical_two.
Qed.

Lemma get_keys_canonical_two_keys_witness :
  View.get_keys Sample.curses canonical_keybindings [115; 120; 106]
  = View.Done (1, "sx") [106].
Proof.
  apply (get_keys_canonical_two_keys Sample.curses 115 120 "s" "x" [106]);
    (lia || reflexivity).
Defined.

(** X5.  After a lead byte 208 or 209 the next code is read as the second
    byte of the key, outside the [try]: a code that is not a byte raises
    [OverflowError] and a byte that is not a continuation byte raises
    [UnicodeDecodeError], instead of giving the token [UNKNOWN]. *)
Theorem get_keys_bad_second_byte (curses : Curses.t) (bindings : list string)
    (ch second_ch : Z) (unread : list Z) :
  ch = 208 \/ ch = 209 ->
  ~ (128 <= second_ch < 192) ->
  View.get_keys curses bindings (ch :: second_ch :: unread)
  = View.Raised (if (0 <=? second_ch) && (second_ch <? 256)
                 then Py.UnicodeDecodeError else Py.OverflowError).
Proof.
  intros Hlead Hcont. unfold View.get_keys, MAX_KEYBINDING_LENGTH.
  cbn [View.get_keys_loop].
  assert (Hch : (ch =? 208) || (ch =? 209) = true) by (destruct Hlead; by subst).
  rewrite Hch. unfold View.decode_pair, View.to_byte.
  assert (Hbyte : (0 <=? ch) && (ch <? 256) = true) by (destruct Hlead; by subst).
  rewrite Hbyte. cbn [mbind result_bind Py.bind].
  destruct ((0 <=? second_ch) && (second_ch <? 256)) eqn:Hsecond;
    cbn [mbind result_bind Py.bind]; [|reflexivity].
  destruct (Z.leb_spec 128 second_ch), (Z.ltb_spec second_ch 192);
    cbn [andb]; (reflexivity || lia).
Qed.

Lemma get_keys_bad_second_byte_witness :
  View.get_keys Sample.curses canonical_keybindings [208; 100; 100]
  = View.Raised Py.UnicodeDecodeError.
Proof.
  apply (get_keys_bad_second_byte Sample.curses canonical_keybindings 208 100 [100]);
    [by left|lia].
Defined.

(** X6.  With the canonical table a lead byte 208 or 209 and a
    continuation byte are one key: the two bytes are the token, the repeat
    count is 1 and no further code is read. *)
Theorem get_keys_two_byte_key (curses : Curses.t) (ch second_ch : Z) (unread : list Z) :
  ch = 208 \/ ch = 209 ->
  128 <= second_ch < 192 ->
  View.get_keys curses canonical_keybindings (ch :: second_ch :: unread)
  = View.Done (1, String (ascii_of_nat (Z.to_nat ch))
                    (String (ascii_of_nat (Z.to_nat second_ch)) "")) unread.
Proof.
  intros Hlead Hcont. unfold View.get_keys, MAX_KEYBINDING_LENGTH.
  cbn [View.get_keys_loop].
  assert (Hch : (ch =? 208) || (ch =? 209) = true) by (destruct Hlead; by subst).
  rewrite Hch. unfold View.decode_pair, View.to_byte.
  assert (Hbyte : (0 <=? ch) && (ch <? 256) = true) by (destruct Hlead; by subst).
  assert (Hsecond : (0 <=? second_ch) && (second_ch <? 256) = true)
    by (apply andb_true_intro; split; [apply Z.leb_le|apply Z.ltb_lt]; lia).
  assert (Hcontb : (128 <=? second_ch) && (second_ch <? 192) = true)
    by (apply andb_true_intro; split; [apply Z.leb_le|apply Z.ltb_lt]; lia).
  rewrite Hbyte, Hsecond. cbn [mbind result_bind Py.bind]. rewrite Hcontb.
  match goal with
  | |- context [View.settled _ ?k] =>
      change k with (String (ascii_of_nat (Z.to_nat ch))
                       (String (ascii_of_nat (Z.to_nat second_ch)) ""))
  end.
  rewrite settled_canonical_two by reflexivity. reflexivity.
Qed.

Lemma get_keys_two_byte_key_witness :
  View.get_keys Sample.curses canonical_keybindings [208; 180; 100]
  = View.Done (1, String (ascii_of_nat 208) (String (ascii_of_nat 180) "")) [100].
Proof.
  apply (get_keys_two_byte_key Sample.curses 208 180 [100]); [by left|lia].
Defined.

(** ** MULTICHAR_KEYBINDINGS *)

Lemma mapped_binding_ok (layout : gmap ascii string) (binding : string) :
  Forall (fun c => is_Some (layout !! c)) (list_ascii_of_string binding) ->
  exists mapped, mapped_binding layout binding = Py.Ok mapped.
Proof.
  induction binding as [|char rest IH]; intros Hall.
  - by exists "".
  - cbn [list_ascii_of_string] in Hall. apply Forall_cons in Hall as [[s Hs] Hrest].
    destruct (IH Hrest) as [tail Htail].
    exists (s +:+ tail). cbn [mapped_binding]. by rewrite Hs, Htail.
Qed.

Lemma mapped_binding_raise (layout : gmap ascii string) (binding : string) (e : Py.exc) :
  mapped_binding layout binding = Py.Raise e ->
  e = Py.KeyError
  /\ Exists (fun c => layout !! c = None) (list_ascii_of_string binding).
Proof.
  induction binding as [|char rest IH]; intros Hraise; [discriminate|].
  cbn [mapped_binding] in Hraise. cbn [list_ascii_of_string].
  destruct (layout !! char) as [s|] eqn:Hchar.
  - destruct (mapped_binding layout rest) as [tail|e']; [discriminate|].
    injection Hraise as <-. destruct (IH eq_refl) as [-> Hex].
    split; [reflexivity|by apply Exists_cons_tl].
  - injection Hraise as <-. split; [reflexivity|by apply Exists_cons_hd].
Qed.

Lemma mapped_bindings_ok (layout : gmap ascii string) (bindings : list string) :
  Forall (fun b => Forall (fun c => is_Some (layout !! c)) (list_ascii_of_string b))
         bindings ->
  exists mapped,
    mapped_bindings layout bindings = Py.Ok mapped /\ length mapped = length bindings.
Proof.
  induction 1 as [|b bs Hb _ IH].
  - by exists [].
  - destruct (mapped_binding_ok layout b Hb) as [m Hm].
    destruct IH as (ms & Hms & Hlen).
    exists (m :: ms). cbn [mapped_bindings]. rewrite Hm, Hms.
    split; [reflexivity|]. cbn. by rewrite Hlen.
Qed.

Lemma mapped_bindings_raise (layout : gmap ascii string) (bindings : list string)
    (e : Py.exc) :
  mapped_bindings layout bindings = Py.Raise e ->
  e = Py.KeyError
  /\ Exists (fun b => Exists (fun c => layout !! c = None) (list_ascii_of_string b))
            bindings.
Proof.
  induction bindings as [|b bs IH]; intros Hraise; [discriminate|].
  cbn [mapped_bindings] in Hraise.
  destruct (mapped_binding layout b) as [m|e'] eqn:Hm.
  - destruct (mapped_bindings layout bs) as [ms|e'']; [discriminate|].
    injection Hraise as <-. destruct (IH eq_refl) as [-> Hex].
    split; [reflexivity|by apply Exists_cons_tl].
  - injection Hraise as <-. destruct (mapped_binding_raise _ _ _ Hm) as [-> Hex].
    split; [reflexivity|by apply Exists_cons_hd].
Qed.

Lemma mapped_bindings_ok_inv (layout : gmap ascii string) (bindings mapped : list string) :
  mapped_bindings layout bindings = Py.Ok mapped ->
  Forall (fun b => Forall (fun c => is_Some (layout !! c)) (list_ascii_of_string b))
         bindings.
Proof.
  intros Hok. apply Forall_forall. intros b Hb. apply Forall_forall. intros c Hc.
  destruct (layout !! c) as [s|] eqn:Hlookup; [by eexists|exfalso].
  assert (Hall : Forall (fun b => Forall (fun c => is_Some (layout !! c))
                                         (list_ascii_of_string b)) bindings -> False).
  { intros Hall. rewrite Forall_forall in Hall. specialize (Hall b Hb).
    rewrite Forall_forall in Hall. destruct (Hall c Hc) as [s Hs]. congruence. }
  clear Hb Hc. revert mapped Hok Hall.
  induction bindings as [|b' bs IH]; intros mapped Hok Hall.
  - apply Hall. constructor.
  - cbn [mapped_bindings] in Hok.
    destruct (mapped_binding layout b') as [m|e] eqn:Hm; [|discriminate].
    destruct (mapped_bindings layout bs) as [ms|e] eqn:Hms; [|discriminate].
    apply (IH ms eq_refl). intros Hbs. apply Hall. constructor; [|exact Hbs].
    clear -Hm. revert m Hm.
    induction b' as [|ch rest IHb]; intros m Hm; [constructor|].
    cbn [mapped_binding] in Hm. cbn [list_ascii_of_string].
    destruct (layout !! ch) as [s|] eqn:Hch; [|discriminate].
    destruct (mapped_binding layout rest) as [tail|e] eqn:Hrest; [|discriminate].
    constructor; [by eexists|by apply (IHb tail)].
Qed.

(** The characters of the canonical bindings are the eight letters. *)
Lemma canonical_letters :
  Forall (fun b => Forall (fun c => c ∈ binding_letters) (list_ascii_of_string b))
         canonical_keybindings
  /\ Forall (fun c => Exists (fun b => c ∈ list_ascii_of_string b) canonical_keybindings)
            binding_letters.
Proof. split; refine (bool_decide_unpack _ _); vm_compute; exact I. Qed.

(** X7.  With a layout configured, the table is built only if the layout
    has every letter of the canonical bindings; then it is the nine
    canonical bindings followed by nine aliases.  Otherwise loading the
    module raises [KeyError]. *)
Theorem keybindings_table_layout (config : Config.t) :
  let layout := Config.LAYOUT_MAPPING config in
  layout <> ∅ ->
  (MULTICHAR_KEYBINDINGS config = Py.Raise Py.KeyError
   /\ Exists (fun c => layout !! c = None) binding_letters)
  \/ (exists mapped,
        MULTICHAR_KEYBINDINGS config = Py.Ok (canonical_keybindings ++ mapped)%list
        /\ length mapped = 9%nat
        /\ mapped_bindings layout canonical_keybindings = Py.Ok mapped
        /\ Forall (fun c => is_Some (layout !! c)) binding_letters).
Proof.
  intros layout Hlayout. unfold MULTICHAR_KEYBINDINGS. fold layout.
  rewrite bool_decide_eq_false_2 by exact Hlayout.
  destruct canonical_letters as [Hchars Hletters].
  destruct (mapped_bindings layout canonical_keybindings) as [mapped|e] eqn:Hmapped.
  - right. exists mapped. split; [reflexivity|].
    pose proof (mapped_bindings_ok_inv _ _ _ Hmapped) as Hall.
    destruct (mapped_bindings_ok _ _ Hall) as (mapped' & Hmapped' & Hlen).
    assert (mapped' = mapped) as -> by congruence.
    split; [exact Hlen|]. split; [reflexivity|].
    rewrite Forall_forall in Hall. rewrite Forall_forall in Hletters.
    apply Forall_forall. intros c Hc.
    destruct (proj1 (Exists_exists _ _) (Hletters c Hc)) as (b & Hb & Hcb).
    specialize (Hall b Hb). rewrite Forall_forall in Hall. by apply Hall.
  - left. destruct (mapped_bindings_raise _ _ _ Hmapped) as [-> Hex].
    split; [reflexivity|].
    apply Exists_exists in Hex as (b & Hb & Hex).
    apply Exists_exists in Hex as (c & Hc & Hnone).
    apply Exists_exists. exists c. split; [|exact Hnone].
    rewrite Forall_forall in Hchars. specialize (Hchars b Hb).
    rewrite Forall_forall in Hchars. by apply Hchars.
Qed.

Lemma keybindings_table_layout_witness :
  exists mapped,
    MULTICHAR_KEYBINDINGS capitals_config = Py.Ok (canonical_keybindings ++ mapped)%list
    /\ length mapped = 9%nat.
Proof.
  assert (Hne : Config.LAYOUT_MAPPING capitals_config <> ∅).
  { intros Hempty.
    apply (f_equal (fun m : gmap ascii string => m !! "d"%char)) in Hempty.
    vm_compute in Hempty. discriminate. }
  destruct (keybindings_table_layout capitals_config Hne)
    as [[Hraise _]|(mapped & Hok & Hlen & _)].
  - vm_compute in Hraise. discriminate.
  - exists mapped. split; [exact Hok|exact Hlen].
Defined.

(** ** AbstractView.draw_lines *)


Lemma length_draw_parts (utils : Utils.t) (y column : Z) (ps : list FormattedText) :
  length (AbstractView.draw_parts utils y column ps) = length ps.
Proof. revert column. induction ps as [|p ps IH]; intros column; cbn; by rewrite ?IH. Qed.

Lemma draw_parts_rows (utils : Utils.t) (y column : Z) (ps : list FormattedText) :
  Forall (row_within y (y + 1)) (AbstractView.draw_parts utils y column ps).
Proof.
  revert column. induction ps as [|p ps IH]; intros column; cbn; constructor.
  - cbn. lia.
  - apply IH.
Qed.

Lemma row_within_weaken (lo hi lo' hi' : Z) (op : DrawOp) :
  lo' <= lo -> hi <= hi' -> row_within lo hi op -> row_within lo' hi' op.
Proof. intros Hlo Hhi. destruct op; cbn; try done. lia. Qed.

(** What [draw_lines] writes and returns. *)
Lemma draw_lines_spec (utils : Utils.t) (first_column line_num : Z)
    (lines : list FormattedLine) :
  (AbstractView.draw_lines utils first_column line_num lines).2 = line_num + Py.len lines
  /\ Forall (row_within line_num (line_num + Py.len lines))
            (AbstractView.draw_lines utils first_column line_num lines).1
  /\ length (AbstractView.draw_lines utils first_column line_num lines).1
     = length (concat (map parts lines)).
Proof.
  revert line_num. induction lines as [|line rest IH]; intros line_num.
  - cbn. split; [unfold Py.len; cbn; lia|]. split; [constructor|reflexivity].
  - cbn [AbstractView.draw_lines].
    destruct (AbstractView.draw_lines utils first_column (line_num + 1) rest)
      as [ops n] eqn:Hrest.
    destruct (IH (line_num + 1)) as (Hn & Hrows & Hlen). rewrite Hrest in Hn, Hrows, Hlen.
    cbn [fst snd] in *. unfold Py.len in *. cbn [length map concat].
    split; [lia|]. split.
    + apply Forall_app. split.
      * eapply Forall_impl; [apply draw_parts_rows|].
        intros op. apply row_within_weaken; lia.
      * eapply Forall_impl; [exact Hrows|].
        intros op. apply row_within_weaken; lia.
    + by rewrite !length_app, length_draw_parts, Hlen.
Qed.





(** ** ChatView.draw: rows and selection *)


(** The loop of [draw] writes the chats of [xs] on the rows from [start]
    on, two rows for a chat, when a block has at most two lines. *)
Lemma draw_chats_rows (utils : Utils.t) (self : ChatView.t)
    (width current offset header_height : Z) (xs : list Chat) (start : Z)
    (ops : list DrawOp) :
  (forall chat is_selected lines,
      ChatView.chat_formatter self chat (ChatView.model self) is_selected width
      = Py.Ok lines -> Py.len lines <= 2) ->
  ChatView.draw_chats utils self width current offset header_height
    (Utils.enumerate2 xs start 2) = Py.Ok ops ->
  Forall (row_within start (start + 2 * Py.len xs)) ops.
Proof.
  intros Hblock. revert start ops.
  induction xs as [|x xs IH]; intros start ops Hdraw.
  - injection Hdraw as <-. constructor.
  - cbn [Utils.enumerate2 ChatView.draw_chats] in Hdraw.
    destruct (ChatView.chat_formatter self x _ _ width) as [lines|e] eqn:Hfmt;
      [|discriminate].
    cbn [mbind result_bind Py.bind] in Hdraw.
    destruct (AbstractView.draw_lines utils _ start lines) as [ops1 n] eqn:Hdl.
    destruct (ChatView.draw_chats utils self width current offset header_height
                (Utils.enumerate2 xs (start + 2) 2)) as [ops2|e] eqn:Hrest;
      [|discriminate].
    cbn [mbind result_bind Py.bind] in Hdraw. injection Hdraw as <-.
    pose proof (Hblock _ _ _ Hfmt) as Hlen.
    destruct (draw_lines_spec utils (ChatView.first_column self) start lines)
      as (_ & Hrows & _).
    rewrite Hdl in Hrows. cbn [fst] in Hrows.
    pose proof (len_nonneg xs) as Hxs.
    assert (Hcons : Py.len (x :: xs) = 1 + Py.len xs) by (unfold Py.len; cbn; lia).
    rewrite Hcons. apply Forall_app. split.
    + eapply Forall_impl; [exact Hrows|]. intros op. apply row_within_weaken; lia.
    + eapply Forall_impl; [exact (IH _ _ Hrest)|].
      intros op. apply row_within_weaken; lia.
Qed.

(** X10.  [ChatView.draw] never writes below the view: when the header
    fits in the height [h] and a chat block has at most two lines, every text
    it writes is on a row from 0 up to [h], [h] excluded. *)
Theorem chat_draw_rows_in_view (utils : Utils.t) (self : ChatView.t) (current : Z)
    (chats : list Chat) (title : string) (ops : list DrawOp) :
  let width := if ChatView.draw_vline self then ChatView.w self - 1 else ChatView.w self in
  let header_lines :=
    ChatView.header_formatter self (Py.str_slice_to (Py.center title width) width) width in
  Py.len header_lines <= ChatView.h self ->
  ChatView.chat_formatter_height self = 2 ->
  (forall chat is_selected lines,
      ChatView.chat_formatter self chat (ChatView.model self) is_selected width
      = Py.Ok lines -> Py.len lines <= 2) ->
  ChatView.draw utils self current chats title = Py.Ok ops ->
  Forall (row_within 0 (ChatView.h self)) ops.
Proof.
  intros width header_lines Hheader Hheight Hblock Hdraw.
  unfold ChatView.draw in Hdraw. fold width header_lines in Hdraw.
  rewrite Hheight in Hdraw.
  set (header_height := Py.len header_lines) in *.
  set (limit := ChatView.limit self header_height) in *.
  set (offset := ChatView.offset current limit) in *.
  destruct (AbstractView.draw_lines utils _ 0 header_lines) as [header_ops n] eqn:Hhdr.
  destruct (ChatView.draw_chats utils self width current offset header_height _)
    as [chat_ops|e] eqn:Hchats; [|discriminate].
  cbn [mbind result_bind Py.bind] in Hdraw. injection Hdraw as <-.
  pose proof (len_nonneg header_lines) as Hh0. fold header_height in Hh0.
  assert (Hlimit : 0 <= limit /\ 2 * limit <= ChatView.h self - header_height).
  { unfold limit, ChatView.limit.
    rewrite Z.quot_div_nonneg by lia.
    split; [apply Z.div_pos; lia|].
    apply Z.mul_div_le. lia. }
  assert (Hoffset : 0 <= offset)
    by (unfold offset, ChatView.offset; destruct (Z.leb_spec limit current); lia).
  assert (Hshown : Py.len (ChatView.visible chats offset limit) <= limit).
  { unfold ChatView.visible. rewrite slice_take_drop by lia.
    unfold Py.len. rewrite length_take. lia. }
  pose proof (draw_chats_rows _ _ _ _ _ _ _ _ _ Hblock Hchats) as Hrows.
  destruct (draw_lines_spec utils (ChatView.first_column self) 0 header_lines)
    as (_ & Hhrows & _).
  rewrite Hhdr in Hhrows. cbn [fst] in Hhrows. fold header_height in Hhrows.
  apply (Forall_app_2 _ [Erase]); [by repeat constructor|].
  apply Forall_app_2; [destruct (ChatView.draw_vline self); by repeat constructor|].
  apply Forall_app_2.
  { eapply Forall_impl; [exact Hhrows|]. intros op. apply row_within_weaken; lia. }
  apply Forall_app_2; [|by repeat constructor].
  eapply Forall_impl; [exact Hrows|]. intros op. apply row_within_weaken; lia.
Qed.

(** A chat block has two lines. *)
Lemma chat_format_two_lines (colors : Colors.t) (utils : Utils.t) (config : Config.t)
    (clock : Datetime.ops) (tdlib : Tdlib.t) (self : ChatFormatter.t) (width : Z)
    (lines : list FormattedLine) :
  ChatFormatter.format colors utils config clock tdlib self width = Py.Ok lines ->
  Py.len lines = ChatFormatter.height.
Proof.
  unfold ChatFormatter.format. intros H.
  destruct (ChatFormatter._get_last_msg_data tdlib self) as [[sender last_msg]|e];
    [|discriminate].
  cbn [mbind result_bind Py.bind] in H.
  destruct (ChatFormatter.date clock self) as [date|e]; [|discriminate].
  cbn [mbind result_bind Py.bind] in H. by injection H as <-.
Qed.

Lemma chat_draw_rows_in_view_witness :
  exists ops,
    ChatView.draw Sample.utils (Sample.chat_view 6) 1
      [Sample.empty_chat; Sample.busy_secret_chat; Sample.empty_chat] "Chats" = Py.Ok ops
    /\ Forall (row_within 0 6) ops.
Proof.
  eexists. split; [vm_compute; reflexivity|].
  apply (chat_draw_rows_in_view Sample.utils (Sample.chat_view 6) 1
           [Sample.empty_chat; Sample.busy_secret_chat; Sample.empty_chat] "Chats").
  - vm_compute. discriminate.
  - reflexivity.
  - intros chat is_selected lines Hfmt.
    rewrite (chat_format_two_lines _ _ _ _ _ _ _ _ Hfmt). vm_compute. discriminate.
  - vm_compute. reflexivity.
Defined.



(** ** ChatFormatter: selection, unread counter, sender label *)



(** The counters from 1 to 999 take four columns. *)
Lemma rjust_counter_length (n : Z) :
  1 <= n <= 999 -> String.length (Py.rjust 4 (Py.str_of_int n)) = 4%nat.
Proof.
  intros Hn.
  assert (Hall : forallb (fun k => Nat.eqb (String.length
                                   (Py.rjust 4 (Py.str_of_int (Z.of_nat k)))) 4)
                         (seq 1 999) = true) by (vm_compute; reflexivity).
  rewrite forallb_forall in Hall.
  specialize (Hall (Z.to_nat n)). rewrite Z2Nat.id in Hall by lia.
  apply Nat.eqb_eq, Hall, in_seq. lia.
Qed.

(** X13.  For a chat that is not marked as unread and whose unread count
    is not negative, the unread flag always has four characters: four spaces
    for 0, and otherwise the count, capped at 999, right-aligned. *)
Theorem chat_unread_flag_width (c : Chat) :
  is_marked_as_unread c = false ->
  0 <= unread_count c ->
  String.length (ChatFormatter.unread_flag c) = 4%nat
  /\ (unread_count c = 0 -> ChatFormatter.unread_flag c = "    ")
  /\ (0 < unread_count c ->
      ChatFormatter.unread_flag c
      = Py.rjust 4 (Py.str_of_int (Z.min 999 (unread_count c)))).
Proof.
  intros Hmarked Hcount. unfold ChatFormatter.unread_flag. rewrite Hmarked.
  destruct (Z.eqb_spec (unread_count c) 0) as [Hzero|Hpos]; cbn [negb].
  - split; [reflexivity|]. split; [reflexivity|lia].
  - split; [apply rjust_counter_length; lia|]. split; [contradiction|reflexivity].
Qed.

Lemma chat_unread_flag_width_witness :
  String.length (ChatFormatter.unread_flag Sample.busy_secret_chat) = 4%nat.
Proof.
  apply (chat_unread_flag_width Sample.busy_secret_chat); [reflexivity|].
  vm_compute. discriminate.
Defined.

(** X14.  The sender of the last message is shown only in group chats:
    for a chat whose type is not a group, the sender run of the second line
    is empty. *)
Theorem chat_format_sender_only_in_groups (colors : Colors.t) (utils : Utils.t)
    (config : Config.t) (clock : Datetime.ops) (tdlib : Tdlib.t)
    (self : ChatFormatter.t) (width : Z) (lines : list FormattedLine) :
  (forall chat_type,
      Tdlib.get_chat_type tdlib (ChatFormatter.chat self) = Some chat_type ->
      Tdlib.is_group tdlib chat_type = false) ->
  ChatFormatter.format colors utils config clock tdlib self width = Py.Ok lines ->
  exists first second,
    lines = [first; second]
    /\ parts second !! 1%nat
       = Some {| text := ""; attributes := ChatFormatter.sender_color colors utils "" |}.
Proof.
  intros Hgroup. unfold ChatFormatter.format.
  assert (Hsender : forall sender last_msg,
             ChatFormatter._get_last_msg_data tdlib self = Py.Ok (sender, last_msg) ->
             sender = None).
  { unfold ChatFormatter._get_last_msg_data. intros sender last_msg.
    destruct (ChatFormatter._get_last_msg self) as [[user body]|e]; [|discriminate].
    cbn [mbind result_bind Py.bind].
    destruct user as [u|]; [|by intros [= <- _]].
    destruct (ChatFormatter.truthy_int (Some u)); [|by intros [= <- _]].
    destruct (Tdlib.get_chat_type tdlib (ChatFormatter.chat self)) as [chat_type|] eqn:Htype;
      [|by intros [= <- _]].
    rewrite (Hgroup chat_type eq_refl). by intros [= <- _]. }
  destruct (ChatFormatter._get_last_msg_data tdlib self) as [[sender last_msg]|e] eqn:Hdata;
    [|discriminate].
  rewrite (Hsender _ _ eq_refl). cbn [mbind result_bind Py.bind].
  destruct (ChatFormatter.date clock self) as [date|e]; [|discriminate].
  cbn [mbind result_bind Py.bind]. intros [= <-].
  do 2 eexists. split; reflexivity.
Qed.

Lemma chat_format_sender_only_in_groups_witness :
  exists lines first second,
    ChatFormatter.format Sample.colors Sample.utils (Sample.config true) Sample.clock
      Sample.tdlib
      {| ChatFormatter.chat := Sample.busy_secret_chat;
         ChatFormatter.model := Sample.model Sample.empty_chat;
         ChatFormatter.selected := false |} 40 = Py.Ok lines
    /\ lines = [first; second]
    /\ parts second !! 1%nat
       = Some {| text := "";
                 attributes := ChatFormatter.sender_color Sample.colors Sample.utils "" |}.
Proof.
  eexists. 
  assert (H := chat_format_sender_only_in_groups Sample.colors Sample.utils
                 (Sample.config true) Sample.clock Sample.tdlib
                 {| ChatFormatter.chat := Sample.busy_secret_chat;
                    ChatFormatter.model := Sample.model Sample.empty_chat;
                    ChatFormatter.selected := false |} 40).
  match type of H with
  | forall lines, ?Hyp -> _ -> _ =>
      assert (Hgroup : Hyp) by (intros chat_type [= <-]; reflexivity)
  end.
  destruct (H _ Hgroup eq_refl) as (first & second & Hlines & Hsender).
  exists first, second. split; [reflexivity|]. split; [exact Hlines|exact Hsender].
Defined.

(** ** MsgFormatter: selection, replies, failures *)



(** X16.  A reply whose target the model does not have is left out
    silently: the message renders exactly as the same message without
    [reply_msg_id]. *)
Theorem msg_format_reply_not_found (colors : Colors.t) (utils : Utils.t)
    (config : Config.t) (clock : Datetime.ops) (m : Msg) (mdl : Model.t)
    (selected : bool) (width reply_to : Z) :
  reply_msg_id m = Some reply_to ->
  Model.get_message mdl (chat_id m) reply_to = None ->
  MsgFormatter.format colors utils config clock
    {| MsgFormatter.msg := m; MsgFormatter.model := mdl;
       MsgFormatter.selected := selected |} width
  = MsgFormatter.format colors utils config clock
      {| MsgFormatter.msg := without_reply m; MsgFormatter.model := mdl;
         MsgFormatter.selected := selected |} width.
Proof.
  intros Hreply Hnone. unfold MsgFormatter.format.
  cbn [MsgFormatter.msg MsgFormatter.model without_reply reply_msg_id].
  rewrite Hreply. unfold MsgFormatter._format_reply_msg.
  cbn [MsgFormatter.msg MsgFormatter.model]. rewrite Hnone.
  destruct (reply_to =? 0); reflexivity.
Qed.

Lemma msg_format_reply_not_found_witness :
  MsgFormatter.format Sample.colors Sample.utils (Sample.config true) Sample.clock
    {| MsgFormatter.msg := with_reply (Sample.text_msg 3 2 "hello") 77;
       MsgFormatter.model := model_with_messages; MsgFormatter.selected := false |} 80
  = MsgFormatter.format Sample.colors Sample.utils (Sample.config true) Sample.clock
      {| MsgFormatter.msg := without_reply (with_reply (Sample.text_msg 3 2 "hello") 77);
         MsgFormatter.model := model_with_messages; MsgFormatter.selected := false |} 80.
Proof.
  apply (msg_format_reply_not_found Sample.colors Sample.utils (Sample.config true)
           Sample.clock (with_reply (Sample.text_msg 3 2 "hello") 77)
           model_with_messages false 80 77); reflexivity.
Defined.

(** X17.  A reply whose target the model has cannot be rendered:
    [_format_reply_msg] passes the target to [_parse_msg], which takes no
    argument, so [format] raises [TypeError] once the body of the message
    itself is parsed, and returns no block in any case. *)
Theorem msg_format_reply_found_raises (colors : Colors.t) (utils : Utils.t)
    (config : Config.t) (clock : Datetime.ops) (self : MsgFormatter.t)
    (width reply_to : Z) (target : Msg) :
  reply_msg_id (MsgFormatter.msg self) = Some reply_to ->
  reply_to <> 0 ->
  Model.get_message (MsgFormatter.model self) (chat_id (MsgFormatter.msg self)) reply_to
  = Some target ->
  (forall body, MsgFormatter._parse_msg self = Py.Ok body ->
     MsgFormatter.format colors utils config clock self width = Py.Raise Py.TypeError)
  /\ (forall lines, MsgFormatter.format colors utils config clock self width <> Py.Ok lines).
Proof.
  intros Hreply Hnonzero Htarget.
  assert (Hbody : forall body, MsgFormatter._parse_msg self = Py.Ok body ->
     MsgFormatter.format colors utils config clock self width = Py.Raise Py.TypeError).
  { intros body Hparse. unfold MsgFormatter.format. rewrite Hparse, Hreply.
    cbn [mbind result_bind Py.bind].
    rewrite (proj2 (Z.eqb_neq _ _) Hnonzero).
    unfold MsgFormatter._format_reply_msg. by rewrite Htarget. }
  split; [exact Hbody|]. intros lines Hformat.
  destruct (MsgFormatter._parse_msg self) as [body|e] eqn:Hparse.
  - rewrite (Hbody body eq_refl) in Hformat. discriminate.
  - unfold MsgFormatter.format in Hformat. rewrite Hparse in Hformat. discriminate.
Qed.

Lemma msg_format_reply_found_raises_witness :
  MsgFormatter.format Sample.colors Sample.utils (Sample.config true) Sample.clock
    {| MsgFormatter.msg := with_reply (Sample.text_msg 3 2 "hello") 2;
       MsgFormatter.model := model_with_messages; MsgFormatter.selected := false |} 80
  = Py.Raise Py.TypeError.
Proof.
  apply (msg_format_reply_found_raises Sample.colors Sample.utils (Sample.config true)
           Sample.clock
           {| MsgFormatter.msg := with_reply (Sample.text_msg 3 2 "hello") 2;
              MsgFormatter.model := model_with_messages; MsgFormatter.selected := false |}
           80 2 (Sample.text_msg 2 2 "earlier") eq_refl) with (body := "hello");
    [lia|reflexivity|reflexivity].
Defined.




(** ** MsgView._collect_msgs_to_draw: where the window is right *)

(** X19.  With the newest message at the bottom and no message before the
    current one in the list, the window never has more lines than the rows
    under the header. *)
Theorem collect_msgs_within_budget (config : Config.t) (self : MsgView.t)
    (current_msg_idx : Z) (msgs : list (Z * Msg)) (blocks : list (list FormattedLine)) :
  Config.LATEST_MSG_ON_TOP config = false ->
  Forall (fun item => current_msg_idx <= item.1) msgs ->
  0 <= MsgView.h self - MsgView.header_formatter_height self ->
  MsgView._collect_msgs_to_draw config self current_msg_idx msgs = Py.Ok blocks ->
  MsgView.total_lines blocks <= MsgView.h self - MsgView.header_formatter_height self.
Proof.
  intros Hbottom Hall Hbudget Hcollect.
  apply (collect_loop_within_budget config self current_msg_idx msgs [] blocks _
           Hbottom Hall Hbudget) in Hcollect.
  exact Hcollect.
Qed.

Lemma collect_msgs_within_budget_witness :
  exists blocks,
    MsgView._collect_msgs_to_draw (Sample.config false) (Sample.msg_view false 3) 0
      [Sample.msg_of_rows 0 2; Sample.msg_of_rows 1 6] = Py.Ok blocks
    /\ MsgView.total_lines blocks <= 3.
Proof.
  eexists. split; [vm_compute; reflexivity|].
  apply (collect_msgs_within_budget (Sample.config false) (Sample.msg_view false 3) 0
           [Sample.msg_of_rows 0 2; Sample.msg_of_rows 1 6]).
  - reflexivity.
  - repeat constructor; vm_compute; discriminate.
  - vm_compute. discriminate.
  - vm_compute. reflexivity.
Defined.

(** When the blocks of the rest of the list fit in the lines left, the loop
    appends them whole. *)
Lemma collect_loop_all_fit (config : Config.t) (self : MsgView.t) (current_msg_idx : Z)
    (msgs : list (Z * Msg)) (blocks collected_items : list (list FormattedLine))
    (lines_available : Z) :
  Forall2 (fun item lines =>
             MsgView.message_formatter self item.2 (MsgView.model self)
               (current_msg_idx =? item.1) (MsgView.width self) = Py.Ok lines)
          msgs blocks ->
  MsgView.total_lines blocks <= lines_available ->
  MsgView.collect_loop config self current_msg_idx msgs collected_items lines_available
  = Py.Ok (collected_items ++ blocks)%list.
Proof.
  intros Hall. revert collected_items lines_available.
  induction Hall as [|[msg_idx msg_item] lines msgs blocks Hfmt _ IH];
    intros collected_items lines_available Hfit.
  - cbn. by rewrite app_nil_r.
  - cbn [MsgView.collect_loop]. cbn [fst snd] in Hfmt. rewrite Hfmt.
    cbn [mbind result_bind Py.bind].
    assert (Htotal : MsgView.total_lines (lines :: blocks)
                     = Py.len lines + MsgView.total_lines blocks).
    { unfold MsgView.total_lines, Py.len. cbn [concat]. rewrite length_app. lia. }
    assert (0 <= MsgView.total_lines blocks) by (unfold MsgView.total_lines; apply len_nonneg).
    destruct (Z.ltb_spec (lines_available - Py.len lines) 0) as [?|_]; [lia|].
    rewrite IH by lia. by rewrite <- app_assoc.
Qed.

(** X20.  When all the messages of the list fit in the rows under the
    header, the window is all their blocks, whole and in the order of the
    list. *)
Theorem collect_msgs_all_fit (config : Config.t) (self : MsgView.t) (current_msg_idx : Z)
    (msgs : list (Z * Msg)) (blocks : list (list FormattedLine)) :
  Forall2 (fun item lines =>
             MsgView.message_formatter self item.2 (MsgView.model self)
               (current_msg_idx =? item.1) (MsgView.width self) = Py.Ok lines)
          msgs blocks ->
  MsgView.total_lines blocks <= MsgView.h self - MsgView.header_formatter_height self ->
  MsgView._collect_msgs_to_draw config self current_msg_idx msgs = Py.Ok blocks.
Proof.
  intros Hall Hfit. unfold MsgView._collect_msgs_to_draw.
  by rewrite (collect_loop_all_fit config self current_msg_idx msgs blocks [] _ Hall Hfit).
Qed.

Lemma collect_msgs_all_fit_witness :
  exists blocks,
    MsgView._collect_msgs_to_draw (Sample.config true) (Sample.msg_view true 5) 0
      [Sample.msg_of_rows 0 2; Sample.msg_of_rows 1 2] = Py.Ok blocks
    /\ map length blocks = [2; 2]%nat.
Proof.
  eexists. split.
  - apply collect_msgs_all_fit.
    + constructor; [vm_compute; reflexivity|].
      constructor; [vm_compute; reflexivity|]. constructor.
    + vm_compute. discriminate.
  - reflexivity.
Defined.

(** Without a message before the current one in the list, the loop only
    appends to what it has collected. *)
Lemma collect_loop_extends (config : Config.t) (self : MsgView.t) (current_msg_idx : Z)
    (msgs : list (Z * Msg)) (collected_items blocks : list (list FormattedLine))
    (lines_available : Z) :
  Forall (fun item => current_msg_idx <= item.1) msgs ->
  MsgView.collect_loop config self current_msg_idx msgs collected_items lines_available
  = Py.Ok blocks ->
  exists more, blocks = (collected_items ++ more)%list.
Proof.
  intros Hall. revert collected_items lines_available.
  induction Hall as [|[msg_idx msg_item] rest Hidx _ IH];
    intros collected_items lines_available Hloop.
  - injection Hloop as <-. exists []. by rewrite app_nil_r.
  - cbn [MsgView.collect_loop] in Hloop. cbn [fst] in Hidx.
    destruct (MsgView.message_formatter self msg_item _ _ _) as [msg_lines|e];
      [|discriminate].
    cbn [mbind result_bind Py.bind] in Hloop.
    destruct (lines_available - Py.len msg_lines <? 0).
    + destruct (msg_idx =? current_msg_idx); [injection Hloop as <-; by eexists|].
      destruct (Z.ltb_spec msg_idx current_msg_idx) as [?|_]; [lia|].
      destruct (0 <? Py.len _).
      * injection Hloop as <-. by eexists.
      * injection Hloop as <-. exists []. by rewrite app_nil_r.
    + apply IH in Hloop as [more ->]. rewrite <- app_assoc. by eexists.
Qed.

(** [l[:k]] is the first [k] elements for [k >= 0]. *)
Lemma slice_to_take {A} (l : list A) (k : Z) :
  0 <= k -> Py.slice l None (Some k) = take (Z.to_nat k) l.
Proof.
  intros Hk. unfold Py.slice. cbn [from_option].
  rewrite slice_bound_nonneg, drop_0, Z.sub_0_r by lia. unfold Py.len.
  destruct (Z.le_gt_cases k (Z.of_nat (length l))).
  - f_equal. lia.
  - rewrite !take_ge; [reflexivity| |]; lia.
Qed.

(** X21.  When the list starts with the current message and no message
    before it follows, the window starts with the block of the current
    message, cut to the rows under the header if it is longer: with at least
    one row and a block that is not empty, the current message has a line in
    the window. *)
Theorem collect_msgs_current_first (config : Config.t) (self : MsgView.t)
    (current_msg_idx : Z) (msg_item : Msg) (rest : list (Z * Msg))
    (lines : list FormattedLine) (blocks : list (list FormattedLine)) :
  let rows := MsgView.h self - MsgView.header_formatter_height self in
  1 <= rows ->
  Forall (fun item => current_msg_idx <= item.1) rest ->
  MsgView.message_formatter self msg_item (MsgView.model self) true (MsgView.width self)
  = Py.Ok lines ->
  1 <= Py.len lines ->
  MsgView._collect_msgs_to_draw config self current_msg_idx
    ((current_msg_idx, msg_item) :: rest) = Py.Ok blocks ->
  exists others,
    blocks = take (Z.to_nat rows) lines :: others
    /\ 1 <= Py.len (take (Z.to_nat rows) lines).
Proof.
  intros rows Hrows Hrest Hfmt Hlines Hcollect.
  assert (Hlen : 1 <= Py.len (take (Z.to_nat rows) lines))
    by (unfold Py.len in *; rewrite length_take; lia).
  unfold MsgView._collect_msgs_to_draw in Hcollect. fold rows in Hcollect.
  cbn [MsgView.collect_loop] in Hcollect.
  rewrite Z.eqb_refl, Hfmt in Hcollect. cbn [mbind result_bind Py.bind] in Hcollect.
  destruct (Z.ltb_spec (rows - Py.len lines) 0) as [Hover|Hfits].
  - injection Hcollect as <-. exists []. split; [|exact Hlen].
    replace (Py.len lines + (rows - Py.len lines)) with rows by lia.
    by rewrite slice_to_take by lia.
  - apply collect_loop_extends in Hcollect as [others ->]; [|exact Hrest].
    exists others. split; [|exact Hlen].
    rewrite take_ge; [reflexivity|]. unfold Py.len in *. lia.
Qed.

Lemma collect_msgs_current_first_witness :
  exists blocks lines others,
    MsgView._collect_msgs_to_draw (Sample.config true) (Sample.msg_view true 3) 0
      [Sample.msg_of_rows 0 5; Sample.msg_of_rows 1 2] = Py.Ok blocks
    /\ blocks = take (Z.to_nat 3) lines :: others
    /\ 1 <= Py.len (take (Z.to_nat 3) lines).
Proof.
  eexists. eexists.
  assert (H := collect_msgs_current_first (Sample.config true) (Sample.msg_view true 3) 0
                 (Sample.msg_of_rows 0 5).2 [Sample.msg_of_rows 1 2]).
  cbv zeta in H.
  edestruct H as (others & Hblocks & Hlen).
  - vm_compute. discriminate.
  - repeat constructor. vm_compute. discriminate.
  - vm_compute. reflexivity.
  - vm_compute. discriminate.
  - vm_compute. reflexivity.
  - exists others. split; [reflexivity|]. split; [exact Hblocks|exact Hlen].
Defined.

(** ** StatusView *)

Section StatusInput.
Variable tables : StatusView.unicode.
Variable self : StatusView.t.
Variable prefix : list Z.

Lemma get_input_outcome (input : list StatusView.wch) :
  (StatusView.get_input tables self prefix input).1
  = (StatusView.input_loop tables self prefix [] input).1.
Proof.
  unfold StatusView.get_input.
  destruct (StatusView.input_loop tables self prefix [] input) as [[] ops]; reflexivity.
Qed.

(** A plain key is added at the end of the buffer. *)
Lemma input_loop_plain (buff : list Z) (key : Z) (rest : list StatusView.wch) :
  StatusView.plain_key tables key ->
  (StatusView.input_loop tables self prefix buff (StatusView.Char key :: rest)).1
  = (StatusView.input_loop tables self prefix (buff ++ [key]) rest).1.
Proof.
  intros (H10 & H127 & H8 & H7 & H27 & Hprint). cbn [StatusView.input_loop].
  rewrite (proj2 (Z.eqb_neq _ _) H10), (proj2 (Z.eqb_neq _ _) H127),
    (proj2 (Z.eqb_neq _ _) H8), (proj2 (Z.eqb_neq _ _) H7),
    (proj2 (Z.eqb_neq _ _) H27), Hprint.
  cbn [orb]. by destruct (StatusView.input_loop tables self prefix (buff ++ [key]) rest).
Qed.

Lemma input_loop_typed (buff typed : list Z) (rest : list StatusView.wch) :
  Forall (StatusView.plain_key tables) typed ->
  (StatusView.input_loop tables self prefix buff (map StatusView.Char typed ++ rest)).1
  = (StatusView.input_loop tables self prefix (buff ++ typed) rest).1.
Proof.
  intros Hall. revert buff. induction Hall as [|key typed Hkey _ IH]; intros buff.
  - by rewrite app_nil_r.
  - cbn [map app]. rewrite (input_loop_plain _ _ _ Hkey), IH. by rewrite <- app_assoc.
Qed.

(** Delete and backspace take the last character off the buffer, and leave
    an empty buffer empty. *)
Lemma input_loop_delete (buff : list Z) (key : Z) (rest : list StatusView.wch) :
  key = 127 \/ key = 8 ->
  (StatusView.input_loop tables self prefix buff (StatusView.Char key :: rest)).1
  = (StatusView.input_loop tables self prefix (removelast buff) rest).1.
Proof.
  intros Hkey. cbn [StatusView.input_loop].
  assert (Hnot10 : (key =? 10) = false) by (destruct Hkey; by subst).
  assert (Hdel : (key =? 127) || (key =? 8) = true) by (destruct Hkey; by subst).
  rewrite Hnot10, Hdel.
  assert (Hbuff : (if 0 <? Py.len buff then Py.slice buff None (Some (-1)) else buff)
                  = removelast buff).
  { destruct buff as [|c buff] using rev_ind; [reflexivity|].
    rewrite removelast_last.
    assert (Hlen : Py.len (buff ++ [c]) = Py.len buff + 1)
      by (unfold Py.len; rewrite length_app; cbn; lia).
    pose proof (len_nonneg buff).
    destruct (Z.ltb_spec 0 (Py.len (buff ++ [c]))); [|lia].
    unfold Py.slice, Py.slice_bound. cbn [from_option]. rewrite Hlen.
    destruct (Z.ltb_spec (-1) 0); [|lia].
    rewrite drop_0. replace (Z.to_nat _) with (length buff) by (unfold Py.len in *; lia).
    by rewrite take_app_length. }
  rewrite Hbuff. by destruct (StatusView.input_loop tables self prefix (removelast buff) rest).
Qed.

(** X22.  With return after them, the plain keys typed are the result of
    [get_input], and the keys after return are left unread. *)
Theorem get_input_typed_return (typed : list Z) (rest : list StatusView.wch) :
  Forall (StatusView.plain_key tables) typed ->
  (StatusView.get_input tables self prefix
     (map StatusView.Char typed ++ StatusView.Char 10 :: rest)).1
  = StatusView.Done (Some typed) rest.
Proof.
  intros Hall. rewrite get_input_outcome, (input_loop_typed _ _ _ Hall). reflexivity.
Qed.

(** X23.  ^G or escape cancels the input: whatever plain keys were typed
    before, the result is [None]. *)
Theorem get_input_cancel (typed : list Z) (key : Z) (rest : list StatusView.wch) :
  Forall (StatusView.plain_key tables) typed ->
  key = 7 \/ key = 27 ->
  (StatusView.get_input tables self prefix
     (map StatusView.Char typed ++ StatusView.Char key :: rest)).1
  = StatusView.Done None rest.
Proof.
  intros Hall Hkey. rewrite get_input_outcome, (input_loop_typed _ _ _ Hall).
  destruct Hkey; by subst.
Qed.

(** X24.  Delete or backspace undoes the last plain key: typing a key and
    then delete comes to the same as typing neither; on an empty buffer
    delete is ignored. *)
Theorem get_input_delete (typed : list Z) (c key : Z) (rest : list StatusView.wch) :
  Forall (StatusView.plain_key tables) typed ->
  StatusView.plain_key tables c ->
  key = 127 \/ key = 8 ->
  (StatusView.get_input tables self prefix
     (map StatusView.Char typed ++ StatusView.Char c :: StatusView.Char key :: rest)).1
  = (StatusView.get_input tables self prefix (map StatusView.Char typed ++ rest)).1
  /\ (StatusView.get_input tables self prefix (StatusView.Char key :: rest)).1
     = (StatusView.get_input tables self prefix rest).1.
Proof.
  intros Hall Hc Hkey. rewrite !get_input_outcome. split.
  - rewrite !(input_loop_typed _ _ _ Hall), (input_loop_plain _ _ _ Hc).
    rewrite (input_loop_delete _ _ _ Hkey). by rewrite removelast_last.
  - by rewrite (input_loop_delete _ _ _ Hkey).
Qed.

(** X25.  A function or keypad key, which [get_wch] returns as an integer,
    ends [get_input] with [TypeError] from [ord], whatever was typed. *)
Theorem get_input_special_key (typed : list Z) (n : Z) (rest : list StatusView.wch) :
  Forall (StatusView.plain_key tables) typed ->
  (StatusView.get_input tables self prefix
     (map StatusView.Char typed ++ StatusView.KeyCode n :: rest)).1
  = StatusView.Raised Py.TypeError.
Proof.
  intros Hall. rewrite get_input_outcome, (input_loop_typed _ _ _ Hall). reflexivity.
Qed.

End StatusInput.

Lemma get_input_typed_return_witness :
  (StatusView.get_input ascii_tables (StatusView.init 24 80) [58]
     (map StatusView.Char [104; 105] ++ [StatusView.Char 10; StatusView.Char 33])).1
  = StatusView.Done (Some [104; 105]) [StatusView.Char 33].
Proof.
  apply (get_input_typed_return ascii_tables (StatusView.init 24 80) [58] [104; 105]
           [StatusView.Char 33]).
  repeat constructor; (lia || reflexivity).
Defined.

Lemma get_input_cancel_witness :
  (StatusView.get_input ascii_tables (StatusView.init 24 80) [58]
     (map StatusView.Char [104; 105] ++ [StatusView.Char 27; StatusView.Char 33])).1
  = StatusView.Done None [StatusView.Char 33].
Proof.
  apply (get_input_cancel ascii_tables (StatusView.init 24 80) [58] [104; 105] 27
           [StatusView.Char 33]); [|by right].
  repeat constructor; (lia || reflexivity).
Defined.

Lemma get_input_delete_witness :
  (StatusView.get_input ascii_tables (StatusView.init 24 80) [58]
     (map StatusView.Char [104; 105]
      ++ StatusView.Char 120 :: StatusView.Char 127 :: [StatusView.Char 10])).1
  = (StatusView.get_input ascii_tables (StatusView.init 24 80) [58]
       (map StatusView.Char [104; 105] ++ [StatusView.Char 10])).1.
Proof.
  apply (get_input_delete ascii_tables (StatusView.init 24 80) [58] [104; 105] 120 127
           [StatusView.Char 10]); [| |by left];
    repeat constructor; (lia || reflexivity).
Defined.

Lemma get_input_special_key_witness :
  (StatusView.get_input ascii_tables (StatusView.init 24 80) [58]
     (map StatusView.Char [104; 105] ++ [StatusView.KeyCode 258])).1
  = StatusView.Raised Py.TypeError.
Proof.
  apply (get_input_special_key ascii_tables (StatusView.init 24 80) [58] [104; 105] 258 []).
  repeat constructor; (lia || reflexivity).
Defined.

Lemma flatten_newlines_no_newline (msg : list Z) :
  10 ∉ StatusView.flatten_newlines msg.
Proof.
  unfold StatusView.flatten_newlines. intros Hin.
  apply list_elem_of_fmap in Hin as (c & Heq & _).
  destruct (Z.eqb_spec c 10); [discriminate|congruence].
Qed.

(** X26.  [StatusView.draw] writes one text at the origin of the window:
    the message with its newlines turned into spaces, cut to the first [w]
    characters, so for [w >= 0] it has [min(w, len(msg))] characters and no
    newline. *)
Theorem status_draw_text (self : StatusView.t) (msg : list Z) :
  0 <= StatusView.w self ->
  exists text,
    StatusView.draw self msg = [StatusView.Clear; StatusView.AddStr 0 0 text;
                                StatusView.Refresh]
    /\ text = take (Z.to_nat (StatusView.w self)) (StatusView.flatten_newlines msg)
    /\ Py.len text = Z.min (StatusView.w self) (Py.len msg)
    /\ 10 ∉ text.
Proof.
  intros Hw. eexists. split; [reflexivity|].
  rewrite slice_to_take by exact Hw. split; [reflexivity|]. split.
  - unfold Py.len, StatusView.flatten_newlines. rewrite length_take, length_map. lia.
  - intros Hin. apply (flatten_newlines_no_newline msg).
    by apply (subseteq_take (Z.to_nat (StatusView.w self))).
Qed.

Lemma status_draw_text_witness :
  exists text,
    StatusView.draw (StatusView.init 24 5) [104; 10; 105; 33; 33; 33; 33]
    = [StatusView.Clear; StatusView.AddStr 0 0 text; StatusView.Refresh]
    /\ text = take (Z.to_nat 5) (StatusView.flatten_newlines [104; 10; 105; 33; 33; 33; 33])
    /\ Py.len text = Z.min 5 (Py.len [104; 10; 105; 33; 33; 33; 33])
    /\ 10 ∉ text.
Proof.
  apply (status_draw_text (StatusView.init 24 5) [104; 10; 105; 33; 33; 33; 33]).
  vm_compute. discriminate.
Defined.

(** ** View.get_keys: a repeat count before a binding *)

(** X27.  With the canonical table, a binding of two keys can follow a
    repeat count of at most three digits: after up to three digit codes the
    codes of [d], [d] give the count and [dd]; after four digit codes only one
    turn is left, so the cycle returns the count with the single key [d] and
    the second [d] is left unread. *)
Theorem get_keys_count_then_dd (curses : Curses.t) (codes : list Z) (ds : list string)
    (unread : list Z) :
  decodes_to_digits curses codes ds ->
  Curses.unctrl curses 100 = Py.Ok "d" ->
  ((length codes <= 3)%nat ->
   View.get_keys curses canonical_keybindings (codes ++ 100 :: 100 :: unread)
   = View.Done (Utils.num (String.concat "" ds) 1, "dd") unread)
  /\ (length codes = 4%nat ->
      View.get_keys curses canonical_keybindings (codes ++ 100 :: 100 :: unread)
      = View.Done (Utils.num (String.concat "" ds) 1, "d") (100 :: unread)).
Proof.
  intros Hdigits Hd.
  assert (Hstep : forall fuel rest keys rf,
             View.get_keys_loop curses canonical_keybindings (S fuel) (100 :: rest) keys rf
             = if View.settled canonical_keybindings (keys +:+ "d")
               then View.Done (keys +:+ "d", rf) rest
               else View.get_keys_loop curses canonical_keybindings fuel rest
                      (keys +:+ "d") rf).
  { intros fuel rest keys rf.
    apply (get_keys_loop_key curses canonical_keybindings fuel 100 rest keys rf "d");
      [lia|lia|exact Hd|reflexivity]. }
  split; intros Hlen; unfold View.get_keys, MAX_KEYBINDING_LENGTH.
  - replace 5%nat with (length codes + S (S (3 - length codes)))%nat by lia.
    rewrite (get_keys_loop_digits curses _ codes ds _ _ _ _ Hdigits).
    rewrite Hstep. change ("" +:+ "d") with "d".
    change (View.settled canonical_keybindings "d") with false. cbv iota.
    rewrite Hstep. change ("d" +:+ "d") with "dd".
    change (View.settled canonical_keybindings "dd") with true. reflexivity.
  - replace 5%nat with (length codes + 1)%nat by lia.
    rewrite (get_keys_loop_digits curses _ codes ds _ _ _ _ Hdigits).
    rewrite Hstep. change ("" +:+ "d") with "d".
    change (View.settled canonical_keybindings "d") with false. reflexivity.
Qed.

Lemma get_keys_count_then_dd_witness :
  View.get_keys Sample.curses canonical_keybindings ([49; 50; 51; 52] ++ [100; 100])
  = View.Done (1234, "d") [100].
Proof.
  apply (get_keys_count_then_dd Sample.curses [49; 50; 51; 52] ["1"; "2"; "3"; "4"] []).
  - repeat constructor; lia.
  - reflexivity.
  - reflexivity.
Defined.

(** ** MsgFormatter._format_reply_markup *)

Lemma count_char_app (c : ascii) (a b : string) :
  count_char c (a +:+ b) = (count_char c a + count_char c b)%nat.
Proof.
  induction a as [|ch a IH]; [reflexivity|].
  rewrite str_app_cons. cbn [count_char]. rewrite IH. lia.
Qed.

Lemma concat_empty_cons (x : string) (xs : list string) :
  String.concat "" (x :: xs) = x +:+ String.concat "" xs.
Proof. destruct xs; [by rewrite str_app_nil_r|reflexivity]. Qed.

Lemma button_cell_one_line (item : Button) :
  button_on_one_line item -> count_char Py.nl (MsgFormatter.button_cell item) = 0%nat.
Proof.
  intros [Htext Hurl]. unfold MsgFormatter.button_cell.
  destruct (button_text item) as [[|a txt]|] eqn:Ht; [reflexivity| |reflexivity].
  specialize (Htext _ eq_refl).
  assert (Hplain : count_char Py.nl ("| " +:+ String a txt +:+ " ") = 0%nat)
    by (rewrite !count_char_app, Htext; reflexivity).
  assert (Hwith : forall url, button_url item = Some url ->
             count_char Py.nl
               ("| " +:+ (String a txt +:+ " (" +:+ url +:+ ")") +:+ " ") = 0%nat).
  { intros url Hu. rewrite !count_char_app, Htext, (Hurl _ Hu). reflexivity. }
  destruct (button_url item) as [url|]; [specialize (Hwith url eq_refl)|clear Hwith].
  - repeat match goal with
           | |- context [match ?x with _ => _ end] => destruct x
           end; first [exact Hplain|exact Hwith].
  - repeat match goal with
           | |- context [match ?x with _ => _ end] => destruct x
           end; exact Hplain.
Qed.

(** X28.  The text that [_format_reply_markup] appends for an inline
    keyboard has one line for each row of buttons: when no button text or URL
    has a newline, it has as many newlines as there are rows; without a
    keyboard it is empty. *)
Theorem reply_markup_one_line_per_row (self : MsgFormatter.t) :
  (reply_markup (MsgFormatter.msg self) = false ->
   MsgFormatter._format_reply_markup self = "")
  /\ (reply_markup (MsgFormatter.msg self) = true ->
      Forall (Forall button_on_one_line) (reply_markup_rows (MsgFormatter.msg self)) ->
      count_char Py.nl (MsgFormatter._format_reply_markup self)
      = length (reply_markup_rows (MsgFormatter.msg self))).
Proof.
  unfold MsgFormatter._format_reply_markup. split; intros Hmarkup; rewrite Hmarkup;
    [reflexivity|]. cbn [negb].
  induction 1 as [|row rows Hrow _ IH]; [reflexivity|].
  cbn [map length]. rewrite concat_empty_cons, count_char_app, IH. f_equal.
  rewrite !count_char_app.
  assert (Hcells : count_char Py.nl (String.concat "" (map MsgFormatter.button_cell row))
                   = 0%nat).
  { induction Hrow as [|item row Hitem _ IHrow]; [reflexivity|].
    cbn [map]. by rewrite concat_empty_cons, count_char_app, button_cell_one_line, IHrow. }
  rewrite Hcells. reflexivity.
Qed.

Lemma reply_markup_one_line_per_row_witness :
  let self := {| MsgFormatter.msg := with_keyboard (Sample.text_msg 3 2 "hello")
                                       sample_keyboard;
                 MsgFormatter.model := Sample.model Sample.empty_chat;
                 MsgFormatter.selected := false |} in
  MsgFormatter._format_reply_markup self
  = String Py.nl "| Open (https://example.org) | Later |" +:+ String Py.nl "|"
  /\ count_char Py.nl (MsgFormatter._format_reply_markup self) = 2%nat.
Proof.
  split; [reflexivity|].
  apply (reply_markup_one_line_per_row
           {| MsgFormatter.msg := with_keyboard (Sample.text_msg 3 2 "hello") sample_keyboard;
              MsgFormatter.model := Sample.model Sample.empty_chat;
              MsgFormatter.selected := false |}); [reflexivity|].
  repeat constructor; intros ? [= <-]; reflexivity.
Defined.
